(** * Tokenthing: the dataset exporter of [download_datasets.py]

    A shallow embedding of [load_config] and [download_and_save_datasets],
    followed by the properties of the exporter.

    Conventions of the model.
    - A Python [str] is a [string]; its characters stand for the code points
      below 256, which is where every character the script inspects lives
      (',', '/', '_', line feed, white space).
    - A [dict] is an association list in insertion order: the script depends
      on that order twice (first split, first string field).
    - The configuration document is a mapping.  The entry
      [hf_dataset_names] is a string, a sequence of strings, or a scalar
      that is not a string (null, a truth value, a number), over which the
      loop of the script cannot iterate.
    - The code under [try:] runs in a state-and-exception monad over the
      [world]: the files of the working directory, the console and the log of
      requests sent to the dataset hub.  State changes made before an
      exception is raised persist, as they do in Python.  Every exception of
      the model is an [Exception], which is what [except Exception] catches.
    - A file is the text written to it.  The bytes on disk are the UTF-8
      encoding of that text, a function of the text alone; the line feed is
      written as it is (no translation of line ends).
    - The hub, the configuration file, the ability to open a file for writing
      and the text of an exception ([str(e)]) belong to the environment and
      are variables of the section. *)

From stdpp Require Import gmap strings list fin_maps pretty.
From Stdlib Require Import Ascii.

Local Open Scope stdpp_scope.

(* ===================================================================== *)
(** * Python strings *)
(* ===================================================================== *)

Module Str.

(** The line feed, ['\n']. *)
Definition LF : ascii := "010"%char.
Definition nl : string := String LF "".

(** [str.isspace] on one character, for code points below 256: the
    controls 9..13 and 28..31, the space, NEL (133) and the no-break
    space (160). *)
Definition isspace (c : ascii) : bool :=
  let n := N_of_ascii c in
  ((9 <=? n) && (n <=? 13) || (28 <=? n) && (n <=? 32)
   || (n =? 133) || (n =? 160))%N.

Fixpoint lstrip (s : string) : string :=
  match s with
  | "" => ""
  | String c s' => if isspace c then lstrip s' else s
  end.

Fixpoint rstrip (s : string) : string :=
  match s with
  | "" => ""
  | String c s' =>
      match rstrip s' with
      | "" => if isspace c then "" else String c ""
      | r => String c r
      end
  end.

(** [s.strip()]: leading white space goes, then trailing white space. *)
Definition strip (s : string) : string := rstrip (lstrip s).

(** [s.split(sep)] for a one-character separator: one piece more than
    there are separators, empty pieces kept. *)
Fixpoint split (sep : ascii) (s : string) : list string :=
  match s with
  | "" => [""]
  | String c s' =>
      if Ascii.eqb c sep then "" :: split sep s'
      else match split sep s' with
           | [] => [String c ""]
           | piece :: pieces => String c piece :: pieces
           end
  end.

(** [s.replace(old, new)] for one-character [old] and [new]. *)
Fixpoint replace (old new : ascii) (s : string) : string :=
  match s with
  | "" => ""
  | String c s' => String (if Ascii.eqb c old then new else c) (replace old new s')
  end.

(** [c in s] for a character. *)
Fixpoint mem (c : ascii) (s : string) : bool :=
  match s with
  | "" => false
  | String c' s' => Ascii.eqb c' c || mem c s'
  end.

Definition first (s : string) : option ascii :=
  match s with "" => None | String c _ => Some c end.

Fixpoint last (s : string) : option ascii :=
  match s with
  | "" => None
  | String c "" => Some c
  | String _ s' => last s'
  end.

Definition is_space_opt (o : option ascii) : bool :=
  match o with Some c => isspace c | None => false end.

(** A string is trimmed when neither its first nor its last character is
    white space (the empty string is trimmed). *)
Definition trimmed (s : string) : bool :=
  negb (is_space_opt (first s)) && negb (is_space_opt (last s)).

(** [sep.join(pieces)] for a one-character separator. *)
Fixpoint join (sep : ascii) (pieces : list string) : string :=
  match pieces with
  | [] => ""
  | [p] => p
  | p :: ps => p +:+ String sep (join sep ps)
  end.

(** [s.count(c)] for a character. *)
Fixpoint count (c : ascii) (s : string) : nat :=
  match s with
  | "" => 0
  | String c' s' => (if Ascii.eqb c' c then 1 else 0) + count c s'
  end.

Fixpoint all_space (s : string) : bool :=
  match s with
  | "" => true
  | String c s' => isspace c && all_space s'
  end.

(** The lines of a text: the pieces that end in a line feed, without it,
    and the unterminated rest, if there is one. *)
Fixpoint lines (s : string) : list string :=
  match s with
  | "" => []
  | String c s' =>
      if Ascii.eqb c LF then "" :: lines s'
      else match lines s' with
           | [] => [String c ""]
           | l :: ls => String c l :: ls
           end
  end.

End Str.

(* ===================================================================== *)
(** * Values, exceptions and dictionaries *)
(* ===================================================================== *)

(** What a field of a record can hold: a string, or something that is not
    a string (nothing, a truth value, a number, a nested list or mapping). *)
#[warnings="-register-all"]
Inductive value :=
| VNone
| VBool (b : bool)
| VInt (n : Z)
| VStr (s : string)
| VList (l : list value)
| VDict (d : list (string * value)).

(** [isinstance(value, str)] *)
Definition is_str (v : value) : bool :=
  match v with VStr _ => true | _ => false end.

Inductive exn :=
| KeyError (key : string)
| IndexError
| TypeError (operand : value)
| OSError (path : string)
| LibraryError (msg : string).

Inductive result (A : Type) :=
| Ok (a : A)
| Raise (e : exn).
Arguments Ok {A} a.
Arguments Raise {A} e.

#[global] Instance result_ret : MRet result := fun A a => Ok a.
#[global] Instance result_bind : MBind result := fun A B f r =>
  match r with Ok a => f a | Raise e => Raise e end.

Module Dict.
Section Ops.
Context {V : Type}.
Implicit Type d : list (string * V).

(** [key in d] *)
Definition contains (key : string) d : bool :=
  existsb (fun kv => String.eqb key kv.1) d.

(** [d[key]] *)
Fixpoint getitem (key : string) d : result V :=
  match d with
  | [] => Raise (KeyError key)
  | (k, v) :: d' => if String.eqb key k then Ok v else getitem key d'
  end.

(** [list(d.values())] *)
Definition values d : list V := map snd d.
End Ops.
End Dict.

(** [l[0]] *)
Definition first_item {A} (l : list A) : result A :=
  match l with
  | [] => Raise IndexError
  | x :: _ => Ok x
  end.

Definition record : Type := list (string * value).
Definition dataset : Type := list (string * list record).

(** A scalar of the configuration that is not a string: what
    [hf_dataset_names:] with nothing after it, [true] or [5] are read as. *)
Inductive scalar :=
| Null
| Truth (b : bool)
| Number (n : Z).

Definition scalar_value (x : scalar) : value :=
  match x with
  | Null => VNone
  | Truth b => VBool b
  | Number n => VInt n
  end.

(** The entry [hf_dataset_names] of the configuration: one string, a
    sequence of strings, or a scalar that is not a string. *)
Inductive names_entry :=
| OneString (s : string)
| Names (l : list string)
| Scalar (x : scalar).

Definition config : Type := list (string * names_entry).

(* ===================================================================== *)
(** * The pure steps of the loop body *)
(* ===================================================================== *)

(** Lines 14-15: a single string is split on commas and every piece is
    stripped; anything else is iterated as it is.  These are the identifiers
    the loop goes through; a scalar has none, and the loop statement raises
    on it (see [iterate]). *)
Definition dataset_names (entry : names_entry) : list string :=
  match entry with
  | OneString s => map Str.strip (Str.split "," s)
  | Names l => l
  | Scalar _ => []
  end.

(** Line 17, [for dataset_name in dataset_names]: the sequence to go
    through is asked of the normalized entry before the first iteration, and
    a scalar that is not a string gives none: [TypeError], outside the
    [try]. *)
Definition iterate (entry : names_entry) : result (list string) :=
  match entry with
  | Scalar x => Raise (TypeError (scalar_value x))
  | _ => Ok (dataset_names entry)
  end.

(** Lines 25-28: the split to export. *)
Definition train_data (ds : dataset) : result (list record) :=
  if Dict.contains "train" ds then Dict.getitem "train" ds
  else first_item (Dict.values ds).

(** Lines 39-42: the inner loop over [item.items()], with its [break]. *)
Fixpoint first_string_field (items : list (string * value)) (texts : list value)
  : list value :=
  match items with
  | [] => texts
  | (_, v) :: items' =>
      if is_str v then texts ++ [v] else first_string_field items' texts
  end.

(** Lines 33-42: one iteration of [for item in train_data]. *)
Definition extract_item (texts : list value) (item : record) : result (list value) :=
  if Dict.contains "text" item then
    v ← Dict.getitem "text" item; mret (texts ++ [v])
  else if Dict.contains "content" item then
    v ← Dict.getitem "content" item; mret (texts ++ [v])
  else mret (first_string_field item texts).

(** Lines 32-42: the loop, threading the list [texts]. *)
Fixpoint extract_loop (data : list record) (texts : list value)
  : result (list value) :=
  match data with
  | [] => mret texts
  | item :: data' => texts' ← extract_item texts item; extract_loop data' texts'
  end.

(** Lines 31-42. *)
Definition extract_texts (data : list record) : result (list value) :=
  extract_loop data [].

(** Line 45. *)
Definition safe_name (dataset_name : string) : string :=
  Str.replace "/" "_" dataset_name.

(** Line 46. *)
Definition output_file (dataset_name : string) : string :=
  safe_name dataset_name +:+ ".txt".

(** Line 51: [text + '\n'], which only a [str] supports. *)
Definition add_newline (text : value) : result string :=
  match text with
  | VStr s => Ok (s +:+ Str.nl)
  | v => Raise (TypeError v)
  end.

(* ===================================================================== *)
(** * The world and the monad of the script *)
(* ===================================================================== *)

Record world := World {
  files : gmap string string;   (** the working directory: name to text *)
  console : list string;        (** the messages given to [print], oldest first *)
  requests : list string        (** the identifiers asked of the hub *)
}.

Definition set_files (fs : gmap string string) (w : world) : world :=
  World fs (console w) (requests w).

(** A computation changes the world and returns or raises; the world it
    leaves behind is kept in both cases. *)
Definition M (A : Type) : Type := world → result A * world.

#[global] Instance M_ret : MRet M := fun A a w => (Ok a, w).
#[global] Instance M_bind : MBind M := fun A B f m w =>
  match m w with
  | (Ok a, w') => f a w'
  | (Raise e, w') => (Raise e, w')
  end.

Definition lift {A} (r : result A) : M A := fun w => (r, w).

(** [try: body except Exception as e: handler] *)
Definition try_except {A} (body : M A) (handler : exn → M A) : M A := fun w =>
  match body w with
  | (Ok a, w') => (Ok a, w')
  | (Raise e, w') => handler e w'
  end.

Definition print (line : string) : M unit := fun w =>
  (Ok (), World (files w) (console w ++ [line]) (requests w)).

(** [for x in xs: f(x)] *)
Fixpoint for_each {A} (xs : list A) (f : A → M unit) : M unit :=
  match xs with
  | [] => mret ()
  | x :: xs' => f x;; for_each xs' f
  end.

Section Exporter.

(** What reading and parsing [cfg/config.yaml] gives. *)
Variable config_file : result config.
(** The dataset hub: what [load_dataset(name)] gives. *)
Variable hub : string → result dataset.
(** Whether [open(path, 'w')] succeeds. *)
Variable can_open : string → bool.
(** [str(e)] *)
Variable describe : exn → string.

(** Lines 5-7. *)
Definition load_config : M config := lift config_file.

(** Line 22. *)
Definition load_dataset (name : string) : M dataset := fun w =>
  (hub name, World (files w) (console w) (requests w ++ [name])).

(** [open(path, 'w')]: the file is created, or truncated if it exists. *)
Definition open_w (path : string) : M unit := fun w =>
  if can_open path then (Ok (), set_files (<[path := ""]> (files w)) w)
  else (Raise (OSError path), w).

(** [f.write(data)] on the file opened at [path]: the data goes to the end.
    The file is closed when the [with] block is left, normally or not, so
    whatever was written by then is in the file. *)
Definition write (path data : string) : M unit := fun w =>
  (Ok (), set_files (<[path := default "" (files w !! path) +:+ data]> (files w)) w).

(** Lines 50-51. *)
Fixpoint write_texts (path : string) (texts : list value) : M unit :=
  match texts with
  | [] => mret ()
  | text :: texts' =>
      line ← lift (add_newline text);
      write path line;;
      write_texts path texts'
  end.

(** Lines 22-53: the body of the [try]. *)
Definition try_body (dataset_name : string) : M unit :=
  ds ← load_dataset dataset_name;
  data ← lift (train_data ds);
  texts ← lift (extract_texts data);
  let output := output_file dataset_name in
  open_w output;;
  write_texts output texts;;
  print ("Saved " +:+ pretty (length texts) +:+ " text samples to " +:+ output).

(** Lines 18-56: one iteration of the loop over the identifiers. *)
Definition process (dataset_name : string) : M unit :=
  print ("Loading dataset: " +:+ dataset_name);;
  try_except (try_body dataset_name)
    (fun e => print ("Error loading dataset " +:+ dataset_name +:+ ": " +:+ describe e)).

(** Lines 9-56. *)
Definition download_and_save_datasets : M unit :=
  cfg ← load_config;
  entry ← lift (Dict.getitem "hf_dataset_names" cfg);
  names ← lift (iterate entry);
  for_each names process.

End Exporter.

Definition empty_world : world := World ∅ [] [].

(* ===================================================================== *)
(** * The specification's reading, for comparison with the code *)
(* ===================================================================== *)

(** The value stored under [key], if the dictionary has that key. *)
Definition field {V} (key : string) (d : list (string * V)) : option V :=
  snd <$> find (fun kv => String.eqb kv.1 key) d.

(** The value a record contributes: the field [text] if present, else the
    field [content] if present, else the first field, in the record's order,
    that holds a string, else nothing. *)
Definition selected_value (item : record) : option value :=
  match field "text" item with
  | Some v => Some v
  | None =>
      match field "content" item with
      | Some v => Some v
      | None => snd <$> find (fun kv => is_str kv.2) item
      end
  end.

(** The split to export: the one named [train] if there is one, else the
    first split, if there is any. *)
Definition chosen_split (ds : dataset) : option (list record) :=
  match field "train" ds with
  | Some data => Some data
  | None => head (snd <$> ds)
  end.

(** Two characters that replacing ['/'] by ['_'] makes equal: the same
    character, or one of ['/'], ['_'] on each side. *)
Definition same_but_slash (c d : ascii) : bool :=
  Ascii.eqb c d
  || (Ascii.eqb c "/" || Ascii.eqb c "_") && (Ascii.eqb d "/" || Ascii.eqb d "_").

(** Two identifiers of the same length that agree at every position, except
    where each of them has a ['/'] or a ['_']. *)
Fixpoint alike (a b : string) : bool :=
  match a, b with
  | "", "" => true
  | String c a', String d b' => same_but_slash c d && alike a' b'
  | _, _ => false
  end.

(** One value per line, every line ended by a line feed. *)
Fixpoint text_lines (strs : list string) : string :=
  match strs with
  | [] => ""
  | s :: strs' => s +:+ Str.nl +:+ text_lines strs'
  end.

(* ===================================================================== *)
(** * Summaries of the loop body, used by the proofs *)
(* ===================================================================== *)

(** What the write loop has put in the file when it stops: the values up to
    the first one that is not a string. *)
Fixpoint rendered (texts : list value) : string :=
  match texts with
  | VStr s :: texts' => s +:+ Str.nl +:+ rendered texts'
  | _ => ""
  end.

(** The value at which the write loop raises, if it does. *)
Fixpoint first_non_str (texts : list value) : option value :=
  match texts with
  | [] => None
  | v :: texts' => if is_str v then first_non_str texts' else Some v
  end.

(** Lines 22-42 without the world: the texts obtained for an identifier. *)
Definition prepared (hub : string → result dataset) (name : string)
  : result (list value) :=
  ds ← hub name; data ← train_data ds; extract_texts data.

(** The effect of one identifier on the files. *)
Definition file_effect (hub : string → result dataset) (can_open : string → bool)
    (name : string) (fs : gmap string string) : gmap string string :=
  match prepared hub name with
  | Ok texts =>
      if can_open (output_file name)
      then <[output_file name := rendered texts]> fs
      else fs
  | Raise _ => fs
  end.

(** The world after a request to the hub, and after a line is printed. *)
Definition asked (name : string) (w : world) : world :=
  World (files w) (console w) (requests w ++ [name]).

Definition printed (line : string) (w : world) : world :=
  World (files w) (console w ++ [line]) (requests w).

(** The three lines the script prints. *)
Definition loading_line (name : string) : string :=
  "Loading dataset: " +:+ name.

Definition saved_line (name : string) (texts : list value) : string :=
  "Saved " +:+ pretty (length texts) +:+ " text samples to " +:+ output_file name.

Definition error_line (describe : exn → string) (name : string) (e : exn) : string :=
  "Error loading dataset " +:+ name +:+ ": " +:+ describe e.

(** A hub for the examples: [org/ds2] has four records in [train], [val]
    has a single split [validation], [multi] has a text of two lines, [mixed]
    has a number under [text], [empty] has no record and [numbers] no string;
    everything else is not found. *)
Definition example_hub (name : string) : result dataset :=
  if String.eqb name "org/ds2" then
    Ok [("train", [[("text", VStr "a")]; [("content", VStr "b")];
                   [("other", VStr "c")]; [("n", VInt 5)]])]
  else if String.eqb name "val" then
    Ok [("validation", [[("text", VStr "v")]])]
  else if String.eqb name "multi" then
    Ok [("train", [[("text", VStr ("a" +:+ Str.nl +:+ "b"))]])]
  else if String.eqb name "mixed" then
    Ok [("train", [[("text", VStr "a")]; [("text", VInt 5)]; [("text", VStr "z")]])]
  else if String.eqb name "empty" then
    Ok [("train", [])]
  else if String.eqb name "numbers" then
    Ok [("train", [[("n", VInt 5)]; []; [("flag", VBool true); ("tags", VList [])]])]
  else Raise (LibraryError "not found").

Definition example_describe (e : exn) : string :=
  match e with
  | KeyError key => key
  | IndexError => "list index out of range"
  | TypeError _ => "can only concatenate str"
  | OSError path => path
  | LibraryError msg => msg
  end.

Definition always_open (path : string) : bool := true.

(** A hub with two identifiers that share their output file. *)
Definition collision_hub (name : string) : result dataset :=
  if String.eqb name "a/b" then Ok [("train", [[("text", VStr "first")]])]
  else if String.eqb name "a_b" then Ok [("train", [[("text", VStr "second")]])]
  else Raise (LibraryError "not found").

(** A text that is empty or whose last character is a line feed. *)
Definition newline_terminated (c : string) : Prop :=
  c = "" ∨ Str.last c = Some Str.LF.

(** The two messages printed for one identifier: the announcement and the
    message that reports the outcome. *)
Definition console_pair (name outcome : string) : list string :=
  [loading_line name; outcome].

(** A message that can report the outcome of [name]: the count of a saved
    export, or the description of a failure. *)
Definition outcome_of (describe : exn → string) (name line : string) : Prop :=
  (∃ texts, line = saved_line name texts) ∨ (∃ e, line = error_line describe name e).

(* ===================================================================== *)
(** * Facts about the string operations *)
(* ===================================================================== *)

Module StrFacts.
Import Str.

(** The two equations of append ([simpl] leaves it folded). *)
Lemma app_nil_l s : "" +:+ s = s.
Proof. reflexivity. Qed.

Lemma app_cons c s t : String c s +:+ t = String c (s +:+ t).
Proof. reflexivity. Qed.

Ltac str_simpl := simpl; rewrite ?app_cons, ?app_nil_l.
Tactic Notation "str_simpl" "in" hyp(H) :=
  simpl in H; rewrite ?app_cons, ?app_nil_l in H.

Lemma app_nil_r s : s +:+ "" = s.
Proof. induction s as [|c s IH]; str_simpl; [done | by rewrite IH]. Qed.

Lemma app_assoc s1 s2 s3 : (s1 +:+ s2) +:+ s3 = s1 +:+ s2 +:+ s3.
Proof. induction s1 as [|c s1 IH]; str_simpl; [done | by rewrite IH]. Qed.

Lemma length_app s1 s2 :
  String.length (s1 +:+ s2) = String.length s1 + String.length s2.
Proof. induction s1 as [|c s1 IH]; str_simpl; [done | by rewrite IH]. Qed.

Lemma app_inj_r s1 s2 t : s1 +:+ t = s2 +:+ t → s1 = s2.
Proof.
  revert s2. induction s1 as [|c s1 IH]; intros [|c' s2] H; str_simpl in H.
  - done.
  - apply (f_equal String.length) in H. simpl in H.
    rewrite length_app in H. lia.
  - apply (f_equal String.length) in H. simpl in H.
    rewrite length_app in H. lia.
  - injection H as -> H. f_equal. by apply IH.
Qed.

(** ** strip *)

Lemma lstrip_first s : is_space_opt (first (lstrip s)) = false.
Proof.
  induction s as [|c s IH]; simpl; [done |].
  destruct (isspace c) eqn:Hc; [done | by simpl].
Qed.

Lemma rstrip_last s : is_space_opt (last (rstrip s)) = false.
Proof.
  induction s as [|c s IH]; simpl; [done |].
  destruct (rstrip s) as [|c' r] eqn:Hr.
  - destruct (isspace c) eqn:Hc; simpl; [done | exact Hc].
  - exact IH.
Qed.

Lemma rstrip_first s :
  is_space_opt (first s) = false → is_space_opt (first (rstrip s)) = false.
Proof.
  destruct s as [|c s]; simpl; [done |]. intros Hc.
  destruct (rstrip s); [by rewrite Hc | done].
Qed.

Lemma strip_trimmed s : trimmed (strip s) = true.
Proof.
  unfold trimmed, strip.
  rewrite rstrip_last, (rstrip_first _ (lstrip_first s)). done.
Qed.

Lemma lstrip_decomp s : ∃ l, s = l +:+ lstrip s ∧ all_space l = true.
Proof.
  induction s as [|c s (l & IH & Hl)]; simpl; [by exists "" |].
  destruct (isspace c) eqn:Hc.
  - exists (String c l). str_simpl. rewrite Hc, Hl. split; [by f_equal | done].
  - by exists "".
Qed.

Lemma rstrip_decomp s : ∃ r, s = rstrip s +:+ r ∧ all_space r = true.
Proof.
  induction s as [|c s (r & IH & Hr)]; simpl; [by exists "" |].
  destruct (rstrip s) as [|c' t] eqn:Ht.
  - str_simpl in IH. subst r. destruct (isspace c) eqn:Hc.
    + exists (String c s). str_simpl. by rewrite Hc, Hr.
    + by exists s.
  - exists r. str_simpl. split; [by f_equal | done].
Qed.

(** What [strip] removes is white space, and only at the two ends. *)
Lemma strip_decomp s :
  ∃ l r, s = l +:+ strip s +:+ r ∧ all_space l = true ∧ all_space r = true.
Proof.
  destruct (lstrip_decomp s) as (l & Hs & Hl).
  destruct (rstrip_decomp (lstrip s)) as (r & Ht & Hr).
  exists l, r. unfold strip. by rewrite <- Ht.
Qed.

(** ** split *)

Lemma split_nonempty sep s : split sep s ≠ [].
Proof.
  destruct s as [|c s]; simpl; [done |].
  destruct (Ascii.eqb c sep); [done |]. by destruct (split sep s).
Qed.

Lemma join_cons sep p ps :
  ps ≠ [] → join sep (p :: ps) = p +:+ String sep (join sep ps).
Proof. by destruct ps. Qed.

Lemma join_extend sep c p ps :
  join sep (String c p :: ps) = String c (join sep (p :: ps)).
Proof. by destruct ps. Qed.

Lemma join_split sep s : join sep (split sep s) = s.
Proof.
  induction s as [|c s IH]; simpl; [done |].
  destruct (Ascii.eqb_spec c sep) as [-> | Hne].
  - rewrite join_cons by apply split_nonempty. str_simpl. by rewrite IH.
  - destruct (split sep s) as [|p ps] eqn:Hsp.
    + by destruct (split_nonempty sep s).
    + rewrite join_extend. by rewrite IH.
Qed.

Lemma split_no_sep sep s p : p ∈ split sep s → mem sep p = false.
Proof.
  revert p. induction s as [|c s IH]; simpl; intros p Hp.
  - apply list_elem_of_singleton in Hp as ->. done.
  - destruct (Ascii.eqb c sep) eqn:Hc.
    + apply elem_of_cons in Hp as [-> | Hp]; [done | by apply IH].
    + destruct (split sep s) as [|q qs] eqn:Hsp.
      * apply list_elem_of_singleton in Hp as ->. simpl. by rewrite Hc.
      * apply elem_of_cons in Hp as [-> | Hp].
        -- simpl. rewrite Hc. apply IH. by left.
        -- apply IH. by right.
Qed.

Lemma length_split sep s : length (split sep s) = S (count sep s).
Proof.
  induction s as [|c s IH]; simpl; [done |].
  destruct (Ascii.eqb c sep); simpl; [by rewrite IH |].
  destruct (split sep s); simpl in *; [done | exact IH].
Qed.

(** ** replace *)

Lemma replace_removes old new s :
  old ≠ new → mem old (replace old new s) = false.
Proof.
  intros Hne. induction s as [|c s IH]; simpl; [done |].
  rewrite IH, orb_false_r.
  destruct (Ascii.eqb_spec c old) as [-> | Hc].
  - by apply Ascii.eqb_neq.
  - by apply Ascii.eqb_neq.
Qed.

Lemma replace_absent old new s : mem old s = false → replace old new s = s.
Proof.
  induction s as [|c s IH]; simpl; [done |].
  intros [Hc Hs]%orb_false_elim. by rewrite Hc, IH.
Qed.

Lemma replace_inj old new a b :
  mem new a = false → mem new b = false →
  replace old new a = replace old new b → a = b.
Proof.
  revert b. induction a as [|c a IH]; intros [|d b]; simpl; try done.
  intros [Hc Ha]%orb_false_elim [Hd Hb]%orb_false_elim [= Hcd Hab].
  f_equal; [| by apply IH].
  apply Ascii.eqb_neq in Hc, Hd.
  destruct (Ascii.eqb_spec c old) as [-> | ?], (Ascii.eqb_spec d old) as [-> | ?];
    congruence.
Qed.

Lemma length_replace old new s :
  String.length (replace old new s) = String.length s.
Proof. induction s as [|c s IH]; simpl; [done | by rewrite IH]. Qed.

(** ** lines *)

Lemma lines_terminated s rest :
  mem LF s = false → lines (s +:+ nl +:+ rest) = s :: lines rest.
Proof.
  induction s as [|c s IH]; str_simpl; [done |].
  intros [Hc Hs]%orb_false_elim. by rewrite Hc, IH.
Qed.

End StrFacts.

Example split_two : Str.split "," "org/ds1, org/ds2" = ["org/ds1"; " org/ds2"].
Proof. reflexivity. Qed.

Example strip_both : Str.strip "  a b  " = "a b".
Proof. reflexivity. Qed.

Example lines_two :
  Str.lines ("a" +:+ Str.nl +:+ "b" +:+ Str.nl +:+ "c") = ["a"; "b"; "c"].
Proof. reflexivity. Qed.

(* ===================================================================== *)
(** * Facts about dictionaries and the pure steps *)
(* ===================================================================== *)

Section DictFacts.
Context {V : Type}.
Implicit Type d : list (string * V).

Lemma contains_field key d : Dict.contains key d = bool_decide (is_Some (field key d)).
Proof.
  unfold field. induction d as [|[k v] d IH]; simpl; [done |].
  rewrite String.eqb_sym. by destruct (String.eqb k key).
Qed.

Lemma getitem_field key d :
  Dict.getitem key d = from_option Ok (Raise (KeyError key)) (field key d).
Proof.
  unfold field. induction d as [|[k v] d IH]; simpl; [done |].
  rewrite String.eqb_sym. by destruct (String.eqb k key).
Qed.

Lemma contains_true key d :
  Dict.contains key d = true → ∃ v, field key d = Some v ∧ Dict.getitem key d = Ok v.
Proof.
  rewrite contains_field, getitem_field. intros [v Hv]%bool_decide_eq_true.
  exists v. by rewrite Hv.
Qed.

Lemma contains_false key d : Dict.contains key d = false → field key d = None.
Proof.
  rewrite contains_field. intros H%bool_decide_eq_false.
  destruct (field key d); [by destruct H | done].
Qed.
End DictFacts.

Lemma first_string_field_find (item : record) (texts : list value) :
  first_string_field item texts
  = texts ++ option_list (snd <$> find (fun kv => is_str kv.2) item).
Proof.
  induction item as [|[k v] item IH]; simpl.
  - by rewrite app_nil_r.
  - destruct (is_str v); [done | exact IH].
Qed.

(** One iteration never raises: it appends the selected value, if any. *)
Lemma extract_item_selected (texts : list value) (item : record) :
  extract_item texts item = Ok (texts ++ option_list (selected_value item)).
Proof.
  unfold extract_item, selected_value.
  destruct (Dict.contains "text" item) eqn:Ht.
  - apply contains_true in Ht as (v & -> & ->). done.
  - rewrite (contains_false _ _ Ht).
    destruct (Dict.contains "content" item) eqn:Hc.
    + apply contains_true in Hc as (v & -> & ->). done.
    + rewrite (contains_false _ _ Hc). by rewrite first_string_field_find.
Qed.

Lemma extract_loop_selected (data : list record) (texts : list value) :
  extract_loop data texts = Ok (texts ++ omap selected_value data).
Proof.
  revert texts. induction data as [|item data IH]; intros texts; simpl.
  - by rewrite app_nil_r.
  - rewrite extract_item_selected. simpl. rewrite IH.
    rewrite <- app_assoc. by destruct (selected_value item).
Qed.

Lemma extract_texts_selected (data : list record) :
  extract_texts data = Ok (omap selected_value data).
Proof. apply extract_loop_selected. Qed.

Lemma train_data_chosen (ds : dataset) :
  train_data ds = from_option Ok (Raise IndexError) (chosen_split ds).
Proof.
  unfold train_data, chosen_split.
  destruct (Dict.contains "train" ds) eqn:Ht.
  - apply contains_true in Ht as (data & -> & ->). done.
  - rewrite (contains_false _ _ Ht). unfold Dict.values. by destruct ds.
Qed.

(* ===================================================================== *)
(** * Facts about the effectful steps *)
(* ===================================================================== *)

Section RunFacts.
Variable config_file : result config.
Variable hub : string → result dataset.
Variable can_open : string → bool.
Variable describe : exn → string.

Local Abbreviation body := (try_body hub can_open).
Local Abbreviation proc := (process hub can_open describe).
Local Abbreviation run :=
  (download_and_save_datasets config_file hub can_open describe).

(** The write loop on a file that holds [c]: it appends the rendered
    values and raises at the first value that is not a string. *)
Lemma write_texts_spec path texts w c :
  files w !! path = Some c →
  write_texts path texts w
  = (from_option (fun v => Raise (TypeError v)) (Ok ()) (first_non_str texts),
     set_files (<[path := c +:+ rendered texts]> (files w)) w).
Proof.
  revert w c. induction texts as [|v texts IH]; intros w c Hc.
  - simpl. rewrite StrFacts.app_nil_r, (insert_id _ _ _ Hc). by destruct w.
  - destruct v; try (simpl; unfold mbind, M_bind, lift; simpl;
      by rewrite StrFacts.app_nil_r, (insert_id _ _ _ Hc); destruct w).
    simpl. unfold mbind, M_bind, lift, write. simpl.
    rewrite (IH _ (c +:+ s +:+ Str.nl)); [| by rewrite Hc; apply lookup_insert_eq].
    rewrite Hc. simpl. rewrite insert_insert_eq.
    by rewrite <- !StrFacts.app_assoc.
Qed.

(** The body of the [try], step by step. *)
Lemma try_body_spec name w :
  body name w =
  match prepared hub name with
  | Raise e => (Raise e, asked name w)
  | Ok texts =>
      if can_open (output_file name) then
        let w' := set_files (<[output_file name := rendered texts]> (files w))
                    (asked name w) in
        match first_non_str texts with
        | Some v => (Raise (TypeError v), w')
        | None => (Ok (), printed (saved_line name texts) w')
        end
      else (Raise (OSError (output_file name)), asked name w)
  end.
Proof.
  unfold try_body, prepared, load_dataset, open_w.
  unfold mbind at 1 2 3 4 5. unfold M_bind, lift. simpl.
  destruct (hub name) as [ds|e]; simpl; [| done].
  destruct (train_data ds) as [data|e]; simpl; [| done].
  destruct (extract_texts data) as [texts|e]; simpl; [| done].
  fold (asked name w).
  destruct (can_open (output_file name)); [| done].
  rewrite (write_texts_spec _ _ _ ""); [| apply lookup_insert_eq].
  simpl. rewrite insert_insert_eq.
  destruct (first_non_str texts); done.
Qed.

Lemma files_asked name w : files (asked name w) = files w.
Proof. done. Qed.

(** One iteration returns normally, whatever happened under [try]. *)
Lemma process_spec name w :
  proc name w =
  match body name (printed (loading_line name) w) with
  | (Ok (), w') => (Ok (), w')
  | (Raise e, w') => (Ok (), printed (error_line describe name e) w')
  end.
Proof.
  unfold process, try_except, mbind, M_bind, print. simpl.
  fold (loading_line name). fold (printed (loading_line name) w).
  destruct (try_body _ _ _ _) as [[[]|e] w']; done.
Qed.

Lemma process_ok name w : ∃ w', proc name w = (Ok (), w').
Proof.
  rewrite process_spec.
  destruct (try_body _ _ _ _) as [[[]|e] w']; eauto.
Qed.

Lemma process_requests name w :
  requests (proc name w).2 = requests w ++ [name].
Proof.
  rewrite process_spec, try_body_spec.
  destruct (prepared hub name) as [texts|e]; [| done].
  destruct (can_open _); [| done].
  by destruct (first_non_str texts).
Qed.

Lemma process_files name w :
  files (proc name w).2 = file_effect hub can_open name (files w).
Proof.
  rewrite process_spec, try_body_spec. unfold file_effect.
  destruct (prepared hub name) as [texts|e]; [| done].
  destruct (can_open _); [| done].
  by destruct (first_non_str texts).
Qed.

Lemma for_each_cons name names w :
  for_each (name :: names) proc w = for_each names proc (proc name w).2.
Proof.
  simpl. unfold mbind, M_bind.
  by destruct (process_ok name w) as [w' ->].
Qed.

(** The loop over the identifiers runs to its end. *)
Lemma for_each_ok names w : (for_each names proc w).1 = Ok ().
Proof.
  revert w. induction names as [|name names IH]; intros w; [done |].
  by rewrite for_each_cons.
Qed.

Lemma for_each_requests names w :
  requests (for_each names proc w).2 = requests w ++ names.
Proof.
  revert w. induction names as [|name names IH]; intros w.
  - simpl. by rewrite app_nil_r.
  - rewrite for_each_cons, IH, process_requests. by rewrite <- app_assoc.
Qed.

Lemma for_each_files names w :
  files (for_each names proc w).2
  = foldl (fun fs name => file_effect hub can_open name fs) (files w) names.
Proof.
  revert w. induction names as [|name names IH]; intros w; [done |].
  by rewrite for_each_cons, IH, process_files.
Qed.

(** The effect on the files is an override by a fixed set of files. *)
Lemma file_effect_union name fs :
  file_effect hub can_open name fs = file_effect hub can_open name ∅ ∪ fs.
Proof.
  unfold file_effect.
  destruct (prepared hub name); [| by rewrite (left_id_L ∅ (∪))].
  destruct (can_open _); [| by rewrite (left_id_L ∅ (∪))].
  by rewrite <- insert_union_l, (left_id_L ∅ (∪)).
Qed.

Lemma foldl_file_effect_union names fs :
  foldl (fun fs name => file_effect hub can_open name fs) fs names
  = foldl (fun fs name => file_effect hub can_open name fs) ∅ names ∪ fs.
Proof.
  revert fs. induction names as [|name names IH]; intros fs; simpl.
  - by rewrite (left_id_L ∅ (∪)).
  - rewrite IH, (IH (file_effect _ _ _ ∅)), (file_effect_union name fs).
    by rewrite (assoc_L (∪)).
Qed.

(** The whole run: the identifiers are obtained, or the run is over. *)
Lemma run_spec w :
  run w =
  match (config_file ≫= Dict.getitem "hf_dataset_names") ≫= iterate with
  | Raise e => (Raise e, w)
  | Ok names => for_each names proc w
  end.
Proof.
  unfold download_and_save_datasets, load_config, lift, mbind, M_bind, result_bind.
  destruct config_file as [cfg|e]; [| done].
  destruct (Dict.getitem _ cfg) as [entry|e]; [| done].
  destruct (iterate entry); done.
Qed.

(** Only the output files of the identifiers are touched. *)
Lemma foldl_file_effect_other names fs p :
  (∀ name, name ∈ names → output_file name ≠ p) →
  foldl (fun fs name => file_effect hub can_open name fs) fs names !! p = fs !! p.
Proof.
  revert fs. induction names as [|name names IH]; intros fs Hp; [done |].
  simpl. rewrite IH by (intros n Hn; apply Hp; by right).
  unfold file_effect. destruct (prepared hub name); [| done].
  destruct (can_open _); [| done].
  apply lookup_insert_ne, Hp. by left.
Qed.

Lemma body_ok_inv name w w' :
  body name w = (Ok (), w') →
  ∃ texts, prepared hub name = Ok texts
    ∧ can_open (output_file name) = true
    ∧ first_non_str texts = None
    ∧ w' = printed (saved_line name texts)
             (set_files (<[output_file name := rendered texts]> (files w))
                (asked name w)).
Proof.
  rewrite try_body_spec.
  destruct (prepared hub name) as [texts|e]; [| done].
  destruct (can_open _); [| done]. simpl.
  destruct (first_non_str texts) eqn:Hv; [done |].
  intros [= <-]. by exists texts.
Qed.

Lemma body_raise_inv name w e w' :
  body name w = (Raise e, w') →
  (prepared hub name = Raise e ∧ w' = asked name w)
  ∨ (∃ texts, prepared hub name = Ok texts
       ∧ can_open (output_file name) = false
       ∧ e = OSError (output_file name) ∧ w' = asked name w)
  ∨ (∃ texts v, prepared hub name = Ok texts
       ∧ can_open (output_file name) = true
       ∧ first_non_str texts = Some v ∧ e = TypeError v
       ∧ w' = set_files (<[output_file name := rendered texts]> (files w))
                (asked name w)).
Proof.
  rewrite try_body_spec.
  destruct (prepared hub name) as [texts|e0].
  - destruct (can_open _).
    + simpl. destruct (first_non_str texts) as [v|] eqn:Hv; [| done].
      intros [= <- <-]. right; right. by exists texts, v.
    + intros [= <- <-]. right; left. by exists texts.
  - intros [= <- <-]. by left.
Qed.

Lemma prepared_inv name texts :
  prepared hub name = Ok texts →
  ∃ ds data, hub name = Ok ds ∧ train_data ds = Ok data
    ∧ texts = omap selected_value data.
Proof.
  unfold prepared. destruct (hub name) as [ds|]; [| done]. simpl.
  destruct (train_data ds) as [data|] eqn:Hd; [| done]. simpl.
  rewrite extract_texts_selected. intros [= <-]. by exists ds, data.
Qed.

Lemma run_iterated names w :
  (config_file ≫= Dict.getitem "hf_dataset_names") ≫= iterate = Ok names →
  run w = for_each names proc w.
Proof. intros H. by rewrite run_spec, H. Qed.

Lemma run_stopped e w :
  (config_file ≫= Dict.getitem "hf_dataset_names") ≫= iterate = Raise e →
  run w = (Raise e, w).
Proof. intros H. by rewrite run_spec, H. Qed.

Lemma run_aborted e w :
  config_file ≫= Dict.getitem "hf_dataset_names" = Raise e →
  run w = (Raise e, w).
Proof. intros H. by rewrite run_spec, H. Qed.

(** The world a run leaves, once the entry is known: a scalar stops the run
    where it started, and has no identifier. *)
Lemma run_world entry w :
  config_file ≫= Dict.getitem "hf_dataset_names" = Ok entry →
  (run w).2 = (for_each (dataset_names entry) proc w).2.
Proof. intros H. rewrite run_spec, H. by destruct entry. Qed.

End RunFacts.

(* ===================================================================== *)
(** * The field-preference rule and the split *)
(* ===================================================================== *)

Lemma prepared_org_ds2 :
  prepared example_hub "org/ds2" = Ok [VStr "a"; VStr "b"; VStr "c"].
Proof. reflexivity. Qed.

(** C1: the loop over the records of the chosen split selects, for every
    record, the value of its field [text] if it has one, else the value of
    its field [content] if it has one, else the first value, in the record's
    field order, that is a string, and else nothing; the values are collected
    in record order and the loop never raises.  For the four records
    [{text: a}], [{content: b}], [{other: c}], [{n: 5}] the values are a, b
    and c, and the file written for them holds these three lines. *)
Theorem text_selection_precedence :
  (∀ data : list record, extract_texts data = Ok (omap selected_value data))
  ∧ extract_texts [[("text", VStr "a")]; [("content", VStr "b")];
                   [("other", VStr "c")]; [("n", VInt 5)]]
    = Ok [VStr "a"; VStr "b"; VStr "c"]
  ∧ selected_value [("n", VInt 5)] = None
  ∧ (∀ describe w,
       files (process example_hub always_open describe "org/ds2" w).2
         !! "org_ds2.txt"
       = Some ("a" +:+ Str.nl +:+ "b" +:+ Str.nl +:+ "c" +:+ Str.nl)).
Proof.
  split; [exact extract_texts_selected |].
  split; [reflexivity |]. split; [reflexivity |].
  intros describe w. rewrite process_files. unfold file_effect.
  rewrite prepared_org_ds2. simpl. apply lookup_insert_eq.
Qed.

(** C2: the split exported is the one named [train] when the dataset has
    one, and otherwise the first split in the order the provider returned;
    the file is written from the records of that split.  A dataset whose
    only split is [validation] has the records of that split exported. *)
Theorem split_selection :
  (∀ ds, train_data ds = from_option Ok (Raise IndexError) (chosen_split ds))
  ∧ (∀ ds data, field "train" ds = Some data → train_data ds = Ok data)
  ∧ (∀ name data ds,
       field "train" ((name, data) :: ds) = None →
       train_data ((name, data) :: ds) = Ok data)
  ∧ (∀ data, train_data [("validation", data)] = Ok data)
  ∧ (∀ hub can_open describe name ds data w,
       hub name = Ok ds → chosen_split ds = Some data →
       can_open (output_file name) = true →
       files (process hub can_open describe name w).2 !! output_file name
       = Some (rendered (omap selected_value data)))
  ∧ (∀ describe w,
       files (process example_hub always_open describe "val" w).2 !! "val.txt"
       = Some ("v" +:+ Str.nl)).
Proof.
  split; [exact train_data_chosen |]. split; [| split; [| split; [| split]]].
  - intros ds data H. by rewrite train_data_chosen; unfold chosen_split; rewrite H.
  - intros name data ds H. by rewrite train_data_chosen; unfold chosen_split; rewrite H.
  - intros data. reflexivity.
  - intros hub can_open describe name ds data w Hds Hsplit Hopen.
    rewrite process_files. unfold file_effect, prepared.
    rewrite Hds. simpl. rewrite train_data_chosen, Hsplit. simpl.
    rewrite extract_texts_selected, Hopen. apply lookup_insert_eq.
  - intros describe w. rewrite process_files. apply lookup_insert_eq.
Qed.

Lemma split_selection_witness :
  train_data [("test", []); ("train", [[("text", VStr "t")]])]
  = Ok [[("text", VStr "t")]]
  ∧ train_data [("test", [[("text", VStr "x")]]); ("dev", [])]
    = Ok [[("text", VStr "x")]]
  ∧ files (process example_hub always_open example_describe "val" empty_world).2
      !! output_file "val"
    = Some (rendered (omap selected_value [[("text", VStr "v")]])).
Proof.
  destruct split_selection as (_ & Htrain & Hfirst & _ & Hval & _).
  split; [| split].
  - apply Htrain. reflexivity.
  - apply Hfirst. reflexivity.
  - apply (Hval example_hub always_open example_describe "val"
             [("validation", [[("text", VStr "v")]])]); reflexivity.
Defined.

(* ===================================================================== *)
(** * The identifiers *)
(* ===================================================================== *)

(** C3, as the code has it: a single string is cut at every comma, the
    pieces keep their order and each is stripped of the white space at its
    two ends, so every identifier is trimmed; empty pieces are kept.  A
    sequence is taken as it is.  For ["org/ds1, org/ds2"] the identifiers are
    [org/ds1] and [org/ds2], and exactly these two are asked of the hub. *)
Theorem dataset_names_normalized :
  (∀ s,
     let pieces := Str.split "," s in
     dataset_names (OneString s) = Str.strip <$> pieces
     ∧ Str.join "," pieces = s
     ∧ Forall (fun p => Str.mem "," p = false) pieces
     ∧ Forall (fun name => Str.trimmed name = true) (dataset_names (OneString s))
     ∧ Forall2 (fun name p => ∃ l r, p = l +:+ name +:+ r
                  ∧ Str.all_space l = true ∧ Str.all_space r = true)
         (dataset_names (OneString s)) pieces
     ∧ length (dataset_names (OneString s)) = S (Str.count "," s))
  ∧ (∀ l, dataset_names (Names l) = l)
  ∧ dataset_names (OneString "org/ds1, org/ds2") = ["org/ds1"; "org/ds2"]
  ∧ (∀ hub can_open describe w,
       requests (download_and_save_datasets
                   (Ok [("hf_dataset_names", OneString "org/ds1, org/ds2")])
                   hub can_open describe w).2
       = requests w ++ ["org/ds1"; "org/ds2"]).
Proof.
  split; [| split; [done | split; [reflexivity |]]].
  - intros s pieces. subst pieces. simpl. repeat split.
    + apply StrFacts.join_split.
    + apply Forall_forall. intros p. apply StrFacts.split_no_sep.
    + apply Forall_fmap, Forall_true. intros p. apply StrFacts.strip_trimmed.
    + apply Forall2_fmap_l, Forall_Forall2_diag, Forall_true.
      intros p. apply StrFacts.strip_decomp.
    + by rewrite length_fmap, StrFacts.length_split.
  - intros hub can_open describe w.
    rewrite (run_world _ _ _ _ (OneString "org/ds1, org/ds2")) by done.
    by rewrite for_each_requests.
Qed.

(** C3, as the specification has it, fails: a comma at the end of the
    entry leaves an empty identifier, which is asked of the hub like any
    other. *)
Lemma dataset_names_keeps_empty :
  dataset_names (OneString "org/ds1,") = ["org/ds1"; ""]
  ∧ requests (download_and_save_datasets
                (Ok [("hf_dataset_names", OneString "org/ds1,")])
                example_hub always_open example_describe empty_world).2
    = ["org/ds1"; ""]
  ∧ ¬ (∀ entry name, name ∈ dataset_names entry → name ≠ "").
Proof.
  split; [reflexivity |]. split; [by vm_compute |].
  intros H. apply (H (OneString "org/ds1,") ""); [| done].
  apply list_elem_of_In. vm_compute. auto.
Qed.

Lemma same_but_slash_spec (c d : ascii) :
  (if Ascii.eqb c "/" then "_"%char else c) = (if Ascii.eqb d "/" then "_"%char else d)
  ↔ same_but_slash c d = true.
Proof.
  unfold same_but_slash.
  destruct (Ascii.eqb_spec c "/") as [Hc | Hc], (Ascii.eqb_spec d "/") as [Hd | Hd],
    (Ascii.eqb_spec c "_") as [Hc' | Hc'], (Ascii.eqb_spec d "_") as [Hd' | Hd'],
    (Ascii.eqb_spec c d) as [Hcd | Hcd];
    simpl; split; intros H; try done; try congruence.
Qed.

Lemma replace_eq_alike (a b : string) :
  Str.replace "/" "_" a = Str.replace "/" "_" b ↔ alike a b = true.
Proof.
  revert b. induction a as [|c a IH]; intros [|d b]; simpl; try done.
  rewrite andb_true_iff, <- IH, <- same_but_slash_spec.
  split; [by intros [= ? ?] | by intros [-> ->]].
Qed.

Lemma output_file_eq_alike (a b : string) :
  output_file a = output_file b ↔ alike a b = true.
Proof.
  rewrite <- replace_eq_alike. unfold output_file, safe_name.
  split; [apply StrFacts.app_inj_r | by intros ->].
Qed.

(** C7, as the code has it: the name of the output file is the identifier
    with every ['/'] turned into ['_'], followed by [.txt], so [org/name]
    gives [org_name.txt]; a run touches no file but the output files of its
    identifiers.  Two identifiers have the same output file exactly when
    they have the same length and agree at every position except where each
    has a ['/'] or a ['_']; all other pairs of distinct identifiers write
    distinct files, in particular two distinct identifiers without
    ['_']. *)
Theorem output_file_name :
  (∀ name,
     output_file name = Str.replace "/" "_" name +:+ ".txt"
     ∧ Str.mem "/" (safe_name name) = false
     ∧ String.length (safe_name name) = String.length name)
  ∧ output_file "org/name" = "org_name.txt"
  ∧ (∀ a b, output_file a = output_file b ↔ alike a b = true)
  ∧ (∀ a b,
       a ≠ b → Str.mem "_" a = false → Str.mem "_" b = false →
       output_file a ≠ output_file b)
  ∧ (∀ config_file hub can_open describe entry w p,
       config_file ≫= Dict.getitem "hf_dataset_names" = Ok entry →
       (∀ name, name ∈ dataset_names entry → output_file name ≠ p) →
       files (download_and_save_datasets config_file hub can_open describe w).2 !! p
       = files w !! p).
Proof.
  split; [| split; [reflexivity | split; [| split]]].
  - intros name. split; [done |]. split.
    + by apply StrFacts.replace_removes.
    + apply StrFacts.length_replace.
  - apply output_file_eq_alike.
  - intros a b Hne Ha Hb H. apply Hne. apply StrFacts.app_inj_r in H.
    by apply (StrFacts.replace_inj "/" "_").
  - intros config_file hub can_open describe entry w p Hcfg Hp.
    rewrite (run_world _ _ _ _ entry w Hcfg), for_each_files.
    by apply foldl_file_effect_other.
Qed.

Lemma output_file_name_witness :
  output_file "a/b_c" = output_file "a_b/c"
  ∧ output_file "ag_news" ≠ output_file "openai/gsm_8k"
  ∧ alike "org/a_b" "org_a/b" = true
  ∧ output_file "org/a" ≠ output_file "org/b"
  ∧ files (download_and_save_datasets
             (Ok [("hf_dataset_names", OneString "org/ds2, val")])
             example_hub always_open example_describe empty_world).2
      !! "notes.txt"
    = None.
Proof.
  destruct output_file_name as (_ & _ & Halike & Hinj & Hother).
  split; [| split; [| split; [| split]]].
  - apply Halike. reflexivity.
  - intros H. apply Halike in H. discriminate H.
  - apply Halike. reflexivity.
  - apply Hinj; [intros H; discriminate H | reflexivity | reflexivity].
  - apply (Hother _ _ _ _ (OneString "org/ds2, val")); [reflexivity |].
    intros name Hn. apply list_elem_of_In in Hn. vm_compute in Hn.
    destruct Hn as [<- | [<- | []]]; by vm_compute.
Defined.

(** C7, as the specification has it, fails: [a/b] and [a_b] are two
    identifiers and have one output file. *)
Lemma output_file_collision :
  "a/b" ≠ "a_b"
  ∧ output_file "a/b" = "a_b.txt"
  ∧ output_file "a_b" = "a_b.txt"
  ∧ ¬ (∀ a b, a ≠ b → output_file a ≠ output_file b).
Proof.
  split; [done |]. split; [reflexivity |]. split; [reflexivity |].
  intros H. by apply (H "a/b" "a_b").
Qed.

(* ===================================================================== *)
(** * The output file *)
(* ===================================================================== *)

Lemma all_strings (texts : list value) :
  first_non_str texts = None →
  ∃ strs, texts = VStr <$> strs ∧ rendered texts = text_lines strs.
Proof.
  induction texts as [|v texts IH]; simpl; [by exists [] |].
  destruct v; simpl; try done.
  intros (strs & -> & Hr)%IH. exists (s :: strs). by rewrite Hr.
Qed.

Lemma lines_text_lines (strs : list string) :
  Forall (fun s => Str.mem Str.LF s = false) strs →
  Str.lines (text_lines strs) = strs.
Proof.
  induction 1 as [|s strs Hs _ IH]; [done |].
  simpl. by rewrite StrFacts.lines_terminated, IH.
Qed.

Lemma omap_selected_none (data : list record) :
  Forall (fun item => selected_value item = None) data →
  omap selected_value data = [].
Proof. induction 1 as [|item data Hi _ IH]; simpl; [done | by rewrite Hi]. Qed.

(** C5, as the code has it: after a successful export the output file is,
    in the order of the split, every selected value followed by a line feed,
    the last included; when no selected value contains a line feed, the
    lines of the file are exactly the selected values, one line for each
    record that yielded a value. *)
Theorem output_file_contents hub can_open name w w' :
  try_body hub can_open name w = (Ok (), w') →
  ∃ ds data strs,
    hub name = Ok ds ∧ train_data ds = Ok data
    ∧ omap selected_value data = VStr <$> strs
    ∧ files w' !! output_file name = Some (text_lines strs)
    ∧ (Forall (fun s => Str.mem Str.LF s = false) strs →
       Str.lines (text_lines strs) = strs
       ∧ length (Str.lines (text_lines strs)) = length (omap selected_value data)).
Proof.
  intros (texts & Hprep & _ & Hstr & ->)%body_ok_inv.
  apply prepared_inv in Hprep as (ds & data & Hds & Hdata & ->).
  apply all_strings in Hstr as (strs & Hstrs & Hr).
  exists ds, data, strs. repeat split; try done.
  - simpl. rewrite Hr. apply lookup_insert_eq.
  - by apply lines_text_lines.
  - rewrite lines_text_lines, Hstrs by done. by rewrite length_fmap.
Qed.

Lemma output_file_contents_witness :
  files (try_body example_hub always_open "org/ds2" empty_world).2
    !! output_file "org/ds2" = Some (text_lines ["a"; "b"; "c"])
  ∧ Str.lines (text_lines ["a"; "b"; "c"]) = ["a"; "b"; "c"]
  ∧ length (Str.lines (text_lines ["a"; "b"; "c"])) = 3.
Proof.
  destruct (output_file_contents example_hub always_open "org/ds2" empty_world
              (try_body example_hub always_open "org/ds2" empty_world).2)
    as (ds & data & strs & Hds & Hdata & Hsel & Hfile & Hlines);
    [vm_compute; reflexivity |].
  injection Hds as <-. injection Hdata as <-.
  destruct strs as [|s1 [|s2 [|s3 [|s4 strs]]]]; try discriminate Hsel.
  injection Hsel as <- <- <-.
  split; [exact Hfile |]. apply Hlines. by repeat constructor.
Defined.

(** C5, as the specification has it, fails: a value of two lines is
    exported successfully, and the file then has two lines for one record,
    neither of them the selected value. *)
Lemma lines_are_not_values :
  let two_lines := "a" +:+ Str.nl +:+ "b" in
  let data : list record := [[("text", VStr two_lines)]] in
  let w := (try_body example_hub always_open "multi" empty_world).2 in
  example_hub "multi" = Ok [("train", data)]
  ∧ (try_body example_hub always_open "multi" empty_world).1 = Ok ()
  ∧ omap selected_value data = [VStr two_lines]
  ∧ files w !! "multi.txt" = Some (two_lines +:+ Str.nl)
  ∧ Str.lines (two_lines +:+ Str.nl) = ["a"; "b"]
  ∧ length (Str.lines (two_lines +:+ Str.nl)) ≠ length (omap selected_value data)
  ∧ (VStr "a" ∉ omap selected_value data)
  ∧ console w = ["Saved 1 text samples to multi.txt"].
Proof.
  repeat (split; [by vm_compute |]). split; [| by vm_compute].
  intros H. apply list_elem_of_In in H. vm_compute in H.
  destruct H as [H | []]. discriminate H.
Qed.

(** C10: when no record of the chosen split yields a value, which includes
    the split without records, the body of the [try] does not raise,
    provided the file can be opened: it leaves the output file empty and
    reports that 0 samples were saved. *)
Theorem empty_export hub can_open name ds data w :
  hub name = Ok ds → train_data ds = Ok data →
  Forall (fun item => selected_value item = None) data →
  can_open (output_file name) = true →
  ∃ w', try_body hub can_open name w = (Ok (), w')
    ∧ files w' = <[output_file name := ""]> (files w)
    ∧ console w' = console w ++ ["Saved 0 text samples to " +:+ output_file name].
Proof.
  intros Hds Hdata Hnone Hopen. rewrite try_body_spec.
  unfold prepared. rewrite Hds. simpl. rewrite Hdata. simpl.
  rewrite extract_texts_selected, (omap_selected_none _ Hnone), Hopen. simpl.
  eexists. split; [reflexivity |]. by split.
Qed.

Lemma empty_export_witness :
  (∃ w', try_body example_hub always_open "empty" empty_world = (Ok (), w')
     ∧ files w' = <["empty.txt" := ""]> ∅
     ∧ console w' = [] ++ ["Saved 0 text samples to empty.txt"])
  ∧ (∃ w', try_body example_hub always_open "numbers"
             (World {["numbers.txt" := "old"]} [] []) = (Ok (), w')
     ∧ files w' = <["numbers.txt" := ""]> {["numbers.txt" := "old"]}
     ∧ console w' = [] ++ ["Saved 0 text samples to numbers.txt"]).
Proof.
  split.
  - apply (empty_export example_hub always_open "empty" [("train", [])] []);
      [reflexivity | reflexivity | constructor | reflexivity].
  - apply (empty_export example_hub always_open "numbers"
             [("train", [[("n", VInt 5)]; [];
                         [("flag", VBool true); ("tags", VList [])]])]
             [[("n", VInt 5)]; []; [("flag", VBool true); ("tags", VList [])]]);
      [reflexivity | reflexivity | repeat constructor | reflexivity].
Defined.

(* ===================================================================== *)
(** * Values that are not strings *)
(* ===================================================================== *)

(** C6, as the code has it: the type of a value is looked at in the
    fallback only.  Every value the rule produces is a string or is the
    value of the record's field [text] or [content], which is taken as it
    is; so when no record has either field, every value produced is a
    string. *)
Theorem fallback_selects_strings (data : list record) (texts : list value) :
  extract_texts data = Ok texts →
  (∀ v, v ∈ texts →
     is_str v = true
     ∨ ∃ item, item ∈ data
         ∧ (field "text" item = Some v ∨ field "content" item = Some v))
  ∧ (Forall (fun item => Dict.contains "text" item = false
                         ∧ Dict.contains "content" item = false) data →
     Forall (fun v => is_str v = true) texts).
Proof.
  rewrite extract_texts_selected. intros [= <-].
  assert (∀ v, v ∈ omap selected_value data →
    ∃ item, item ∈ data ∧ selected_value item = Some v) as Hsel.
  { intros v Hv. by apply list_elem_of_omap in Hv. }
  split.
  - intros v (item & Hitem & Hv)%Hsel. unfold selected_value in Hv.
    destruct (field "text" item) as [t|] eqn:Ht.
    { injection Hv as ->. right. exists item. auto. }
    destruct (field "content" item) as [c|] eqn:Hc.
    { injection Hv as ->. right. exists item. auto. }
    destruct (find _ item) as [[k u]|] eqn:Hf; [| done].
    injection Hv as <-. left. by apply find_some in Hf as [_ Hu].
  - intros Hall. apply Forall_forall. intros v (item & Hitem & Hv)%Hsel.
    rewrite Forall_forall in Hall. destruct (Hall item Hitem) as [Ht Hc].
    unfold selected_value in Hv.
    rewrite (contains_false _ _ Ht), (contains_false _ _ Hc) in Hv.
    destruct (find _ item) as [[k u]|] eqn:Hf; [| done].
    injection Hv as <-. by apply find_some in Hf as [_ Hu].
Qed.

Lemma fallback_selects_strings_witness :
  (∀ v, v ∈ [VStr "c"; VInt 5] →
     is_str v = true
     ∨ ∃ item, item ∈ [[("n", VInt 1); ("other", VStr "c")]; [("content", VInt 5)]]
         ∧ (field "text" item = Some v ∨ field "content" item = Some v))
  ∧ Forall (fun v => is_str v = true) [VStr "c"; VStr "d"].
Proof.
  split.
  - apply (fallback_selects_strings
             [[("n", VInt 1); ("other", VStr "c")]; [("content", VInt 5)]]).
    reflexivity.
  - apply (fallback_selects_strings
             [[("n", VInt 1); ("other", VStr "c")]; [("k", VStr "d"); ("l", VStr "e")]]);
      [reflexivity | by repeat constructor].
Defined.

(** C6, as the specification has it, fails: a number stored under [text]
    is selected and appended to the sequence. *)
Lemma text_field_any_type :
  extract_texts [[("text", VInt 5); ("title", VStr "t")]] = Ok [VInt 5]
  ∧ is_str (VInt 5) = false
  ∧ ¬ (∀ data texts, extract_texts data = Ok texts →
         Forall (fun v => is_str v = true) texts).
Proof.
  split; [reflexivity |]. split; [reflexivity |].
  intros H. specialize (H [[("text", VInt 5)]] [VInt 5] eq_refl).
  by apply Forall_cons in H as [? _].
Qed.

(* ===================================================================== *)
(** * Failures *)
(* ===================================================================== *)

(** C4, as the code has it: a failure under the [try] of one identifier is
    caught there: the iteration returns normally after printing a line that
    names the identifier and describes the failure, and the loop goes on
    with the next identifier, so the loop itself never fails and every
    identifier is asked of the hub, in order.  The run fails only when the
    identifiers cannot be obtained from the configuration, and that happens
    in three ways: the file cannot be read or parsed; it has no entry
    [hf_dataset_names]; or that entry is a scalar that is not a string, over
    which the loop statement cannot iterate.  Nothing has been printed,
    requested or written then. *)
Theorem failures_stay_per_identifier config_file hub can_open describe :
  let proc := process hub can_open describe in
  let run := download_and_save_datasets config_file hub can_open describe in
  let identifiers :=
    (config_file ≫= Dict.getitem "hf_dataset_names") ≫= iterate in
  (∀ name w e w1,
     try_body hub can_open name (printed (loading_line name) w) = (Raise e, w1) →
     proc name w
     = (Ok (), World (files w1)
                 (console w1
                  ++ ["Error loading dataset " +:+ name +:+ ": " +:+ describe e])
                 (requests w1)))
  ∧ (∀ name names w,
       for_each (name :: names) proc w = for_each names proc (proc name w).2)
  ∧ (∀ names w,
       (for_each names proc w).1 = Ok ()
       ∧ requests (for_each names proc w).2 = requests w ++ names)
  ∧ (∀ e w, identifiers = Raise e → run w = (Raise e, w))
  ∧ (∀ names w,
       identifiers = Ok names →
       (run w).1 = Ok () ∧ requests (run w).2 = requests w ++ names)
  ∧ (∀ e,
       identifiers = Raise e
       ↔ config_file = Raise e
         ∨ (∃ cfg, config_file = Ok cfg
              ∧ field "hf_dataset_names" cfg = None
              ∧ e = KeyError "hf_dataset_names")
         ∨ (∃ cfg x, config_file = Ok cfg
              ∧ field "hf_dataset_names" cfg = Some (Scalar x)
              ∧ e = TypeError (scalar_value x)))
  ∧ (∀ names,
       identifiers = Ok names
       ↔ ∃ cfg,
           config_file = Ok cfg
           ∧ ((∃ s, field "hf_dataset_names" cfg = Some (OneString s)
                 ∧ names = dataset_names (OneString s))
              ∨ field "hf_dataset_names" cfg = Some (Names names))).
Proof.
  intros proc run identifiers. subst proc run identifiers.
  split; [| split; [| split; [| split; [| split; [| split]]]]].
  - intros name w e w1 H. by rewrite process_spec, H.
  - intros name names w. apply for_each_cons.
  - intros names w. split; [apply for_each_ok | apply for_each_requests].
  - intros e w H. by apply run_stopped.
  - intros names w H. rewrite (run_iterated _ _ _ _ names w H).
    split; [apply for_each_ok | apply for_each_requests].
  - intros e. destruct config_file as [cfg|e0]; simpl.
    + rewrite getitem_field.
      destruct (field "hf_dataset_names" cfg) as [[s | l | x]|] eqn:Hf; simpl.
      * split; [done |].
        intros [? | [(? & [= <-] & ? & _) | (? & ? & [= <-] & ? & _)]]; congruence.
      * split; [done |].
        intros [? | [(? & [= <-] & ? & _) | (? & ? & [= <-] & ? & _)]]; congruence.
      * split.
        -- intros [= <-]. right; right. by exists cfg, x.
        -- intros [? | [(? & [= <-] & ? & _) | (? & ? & [= <-] & ? & ->)]];
             congruence.
      * split.
        -- intros [= <-]. right; left. by exists cfg.
        -- intros [? | [(? & [= <-] & _ & ->) | (? & ? & [= <-] & ? & _)]];
             congruence.
    + split.
      * intros [= <-]. by left.
      * intros [[= <-] | [(? & ? & _) | (? & ? & ? & _)]]; done.
  - intros names. destruct config_file as [cfg|e0]; simpl.
    + rewrite getitem_field.
      destruct (field "hf_dataset_names" cfg) as [[s | l | x]|] eqn:Hf; simpl.
      * split.
        -- intros [= <-]. exists cfg. split; [done |]. left. by exists s.
        -- intros (? & [= <-] & [(? & ? & ->) | ?]); congruence.
      * split.
        -- intros [= <-]. exists cfg. split; [done |]. by right.
        -- intros (? & [= <-] & [(? & ? & ->) | ?]); congruence.
      * split; [done |].
        intros (? & [= <-] & [(? & ? & ->) | ?]); congruence.
      * split; [done |].
        intros (? & [= <-] & [(? & ? & ->) | ?]); congruence.
    + split; [done |]. by intros (? & ? & _).
Qed.

Lemma failures_stay_per_identifier_witness :
  process example_hub always_open example_describe "org/ds1" empty_world
  = (Ok (), World ∅ (["Loading dataset: org/ds1"]
                    ++ ["Error loading dataset org/ds1: not found"])
              ([] ++ ["org/ds1"]))
  ∧ download_and_save_datasets (Raise (LibraryError "no such file"))
      example_hub always_open example_describe empty_world
    = (Raise (LibraryError "no such file"), empty_world)
  ∧ download_and_save_datasets (Ok [])
      example_hub always_open example_describe empty_world
    = (Raise (KeyError "hf_dataset_names"), empty_world)
  ∧ download_and_save_datasets (Ok [("hf_dataset_names", Scalar Null)])
      example_hub always_open example_describe empty_world
    = (Raise (TypeError VNone), empty_world)
  ∧ requests (download_and_save_datasets
                (Ok [("hf_dataset_names", OneString "org/ds1, org/ds2")])
                example_hub always_open example_describe empty_world).2
    = [] ++ ["org/ds1"; "org/ds2"]
  ∧ (Ok [("hf_dataset_names", Scalar (Number 5))]
       ≫= Dict.getitem "hf_dataset_names") ≫= iterate
    = Raise (TypeError (VInt 5))
  ∧ (Ok [("seed", Scalar (Number 1)); ("hf_dataset_names", Names ["a"; " b"])]
       ≫= Dict.getitem "hf_dataset_names") ≫= iterate
    = Ok ["a"; " b"].
Proof.
  split; [| split; [| split; [| split; [| split; [| split]]]]].
  - destruct (failures_stay_per_identifier (Raise IndexError) example_hub
                always_open example_describe) as (Hcaught & _).
    apply (Hcaught "org/ds1" empty_world (LibraryError "not found")
             (World ∅ ["Loading dataset: org/ds1"] ["org/ds1"])).
    reflexivity.
  - destruct (failures_stay_per_identifier (Raise (LibraryError "no such file"))
                example_hub always_open example_describe)
      as (_ & _ & _ & Habort & _).
    apply Habort. reflexivity.
  - destruct (failures_stay_per_identifier (Ok [])
                example_hub always_open example_describe)
      as (_ & _ & _ & Habort & _).
    apply Habort. reflexivity.
  - destruct (failures_stay_per_identifier
                (Ok [("hf_dataset_names", Scalar Null)])
                example_hub always_open example_describe)
      as (_ & _ & _ & Habort & _).
    apply Habort. reflexivity.
  - destruct (failures_stay_per_identifier
                (Ok [("hf_dataset_names", OneString "org/ds1, org/ds2")])
                example_hub always_open example_describe)
      as (_ & _ & _ & _ & Hrun & _).
    apply (Hrun ["org/ds1"; "org/ds2"]). reflexivity.
  - destruct (failures_stay_per_identifier
                (Ok [("hf_dataset_names", Scalar (Number 5))])
                example_hub always_open example_describe)
      as (_ & _ & _ & _ & _ & Hcauses & _).
    apply Hcauses. right; right.
    exists [("hf_dataset_names", Scalar (Number 5))], (Number 5). by repeat split.
  - destruct (failures_stay_per_identifier
                (Ok [("seed", Scalar (Number 1));
                     ("hf_dataset_names", Names ["a"; " b"])])
                example_hub always_open example_describe)
      as (_ & _ & _ & _ & _ & _ & Hnames).
    apply Hnames.
    exists [("seed", Scalar (Number 1)); ("hf_dataset_names", Names ["a"; " b"])].
    split; [done |]. by right.
Defined.

(** C4, as the specification has it, fails: a configuration file that is
    read and parsed without error but lacks the entry [hf_dataset_names]
    ends the run with a [KeyError], before any identifier is processed. *)
Lemma missing_entry_is_fatal :
  let config_file := Ok [("other_key", OneString "org/ds2")] in
  download_and_save_datasets config_file
    example_hub always_open example_describe empty_world
  = (Raise (KeyError "hf_dataset_names"), empty_world)
  ∧ ¬ (∀ (config_file : result config) w e,
         (download_and_save_datasets config_file
            example_hub always_open example_describe w).1 = Raise e →
         ∃ e', config_file = Raise e').
Proof.
  split; [reflexivity |].
  intros H.
  destruct (H (Ok [("other_key", OneString "org/ds2")]) empty_world
              (KeyError "hf_dataset_names") eq_refl) as [e' He'].
  discriminate He'.
Qed.

(** C8, as the code has it: when the body of the [try] fails, the error
    line is printed, and what is in the directory depends on where it
    failed.  A failure before the file is open (the fetch, the choice of the
    split, the opening itself) leaves every file as it was.  A failure while
    writing, at a selected value that is not a string, leaves the output
    file holding the lines of the values before that one.  When nothing
    fails, the file holds every line and the number of samples is
    reported. *)
Theorem failed_identifier_files hub can_open describe name w :
  let w0 := printed (loading_line name) w in
  let w' := (process hub can_open describe name w).2 in
  let out := output_file name in
  (∀ e w1,
     try_body hub can_open name w0 = (Raise e, w1) →
     console w' = console w ++ [loading_line name; error_line describe name e]
     ∧ ((prepared hub name = Raise e ∧ files w' = files w)
        ∨ (∃ texts, prepared hub name = Ok texts ∧ can_open out = false
             ∧ e = OSError out ∧ files w' = files w)
        ∨ (∃ texts v, prepared hub name = Ok texts ∧ can_open out = true
             ∧ first_non_str texts = Some v ∧ e = TypeError v
             ∧ files w' = <[out := rendered texts]> (files w))))
  ∧ (∀ w1,
       try_body hub can_open name w0 = (Ok (), w1) →
       ∃ texts, prepared hub name = Ok texts ∧ first_non_str texts = None
         ∧ console w' = console w ++ [loading_line name; saved_line name texts]
         ∧ files w' = <[out := rendered texts]> (files w)).
Proof.
  intros w0 w' out. subst w0 w' out. rewrite process_spec. split.
  - intros e w1 H. rewrite H. simpl.
    apply body_raise_inv in H
      as [[Hp ->] | [(texts & Hp & Ho & -> & ->) | (texts & v & Hp & Ho & Hv & -> & ->)]];
      simpl; rewrite <- app_assoc; (split; [done |]).
    + by left.
    + right; left. by exists texts.
    + right; right. by exists texts, v.
  - intros w1 H. rewrite H. simpl.
    apply body_ok_inv in H as (texts & Hp & _ & Hv & ->).
    exists texts. simpl. by rewrite <- app_assoc.
Qed.

Lemma failed_identifier_files_witness :
  let w' := (process example_hub always_open example_describe "mixed" empty_world).2 in
  (console w' = [] ++ [loading_line "mixed";
                       error_line example_describe "mixed" (TypeError (VInt 5))]
   ∧ ((prepared example_hub "mixed" = Raise (TypeError (VInt 5)) ∧ files w' = ∅)
      ∨ (∃ texts, prepared example_hub "mixed" = Ok texts
           ∧ always_open "mixed.txt" = false
           ∧ TypeError (VInt 5) = OSError "mixed.txt" ∧ files w' = ∅)
      ∨ (∃ texts v, prepared example_hub "mixed" = Ok texts
           ∧ always_open "mixed.txt" = true
           ∧ first_non_str texts = Some v ∧ TypeError (VInt 5) = TypeError v
           ∧ files w' = <["mixed.txt" := rendered texts]> ∅)))
  ∧ (∃ texts, prepared example_hub "org/ds2" = Ok texts ∧ first_non_str texts = None
       ∧ console (process example_hub always_open example_describe "org/ds2"
                    empty_world).2
         = [] ++ [loading_line "org/ds2"; saved_line "org/ds2" texts]
       ∧ files (process example_hub always_open example_describe "org/ds2"
                  empty_world).2
         = <["org_ds2.txt" := rendered texts]> ∅).
Proof.
  split.
  - destruct (failed_identifier_files example_hub always_open example_describe
                "mixed" empty_world) as (Hfail & _).
    apply (Hfail (TypeError (VInt 5))
             (try_body example_hub always_open "mixed"
                (printed (loading_line "mixed") empty_world)).2).
    vm_compute. reflexivity.
  - destruct (failed_identifier_files example_hub always_open example_describe
                "org/ds2" empty_world) as (_ & Hok).
    apply (Hok (try_body example_hub always_open "org/ds2"
                  (printed (loading_line "org/ds2") empty_world)).2).
    vm_compute. reflexivity.
Defined.

(** C8, as the specification has it, fails: the export of [mixed] stops at
    the number under [text]; the error line is printed and the output file
    exists, holding the line written before. *)
Lemma failed_export_leaves_file :
  let w := (process example_hub always_open example_describe "mixed" empty_world).2 in
  (try_body example_hub always_open "mixed"
     (printed (loading_line "mixed") empty_world)).1 = Raise (TypeError (VInt 5))
  ∧ console w = ["Loading dataset: mixed";
                 "Error loading dataset mixed: can only concatenate str"]
  ∧ files w !! "mixed.txt" = Some ("a" +:+ Str.nl)
  ∧ files empty_world !! "mixed.txt" = None.
Proof. by vm_compute. Qed.

(* ===================================================================== *)
(** * Running twice *)
(* ===================================================================== *)

(** C9: with the same configuration and the same answers of the hub, a run
    overrides the directory with a set of files that depends on nothing
    else; so a second run, started in the directory the first one left,
    leaves every file as the first run wrote it. *)
Theorem rerun_reproduces_files config_file hub can_open describe :
  let run := download_and_save_datasets config_file hub can_open describe in
  (∀ w, files (run (run w).2).2 = files (run w).2)
  ∧ (∃ out : gmap string string, ∀ w, files (run w).2 = out ∪ files w).
Proof.
  intros run.
  assert (∃ out : gmap string string, ∀ w, files (run w).2 = out ∪ files w)
    as [out Hout].
  { subst run.
    destruct (config_file ≫= Dict.getitem "hf_dataset_names") as [entry|e] eqn:Hc.
    - eexists. intros w. rewrite (run_world _ _ _ _ entry w Hc).
      rewrite for_each_files. apply foldl_file_effect_union.
    - exists ∅. intros w. rewrite (run_aborted _ _ _ _ e w Hc).
      by rewrite (left_id_L ∅ (∪)). }
  split; [| by exists out].
  intros w. rewrite !Hout. by rewrite (assoc_L (∪)), (idemp_L (∪)).
Qed.

(* ===================================================================== *)
(** * More on the identifiers *)
(* ===================================================================== *)

Module StrMore.
Import Str.

Lemma split_absent sep s : mem sep s = false → split sep s = [s].
Proof.
  induction s as [|c s IH]; simpl; [done |].
  intros [Hc Hs]%orb_false_elim. by rewrite Hc, IH.
Qed.

Lemma split_app_sep sep p t :
  mem sep p = false → split sep (p +:+ String sep t) = p :: split sep t.
Proof.
  induction p as [|c p IH]; StrFacts.str_simpl.
  - intros _. by rewrite Ascii.eqb_refl.
  - intros [Hc Hp]%orb_false_elim. by rewrite Hc, IH.
Qed.

Lemma split_join sep pieces :
  pieces ≠ [] → Forall (fun p => mem sep p = false) pieces →
  split sep (join sep pieces) = pieces.
Proof.
  intros Hne Hall. induction Hall as [|p pieces Hp Hall IH]; [done |].
  destruct pieces as [|q pieces]; [by apply split_absent |].
  rewrite StrFacts.join_cons by done.
  rewrite split_app_sep by done. by rewrite IH.
Qed.

Lemma mem_all_space c s : isspace c = false → all_space s = true → mem c s = false.
Proof.
  intros Hc. induction s as [|c' s IH]; simpl; [done |].
  intros [Hc' Hs]%andb_prop. rewrite (IH Hs), orb_false_r.
  apply Ascii.eqb_neq. intros ->. congruence.
Qed.

Lemma strip_all_space s : all_space s = true → strip s = "".
Proof.
  unfold strip. induction s as [|c s IH]; simpl; [done |].
  intros [Hc Hs]%andb_prop. rewrite Hc. by apply IH.
Qed.

Lemma lstrip_id s : is_space_opt (first s) = false → lstrip s = s.
Proof. destruct s as [|c s]; simpl; [done |]. by intros ->. Qed.

Lemma rstrip_id s : is_space_opt (last s) = false → rstrip s = s.
Proof.
  induction s as [|c s IH]; [done |].
  destruct s as [|c' s].
  - simpl. by intros ->.
  - intros Hl. change (last (String c (String c' s))) with (last (String c' s)) in Hl.
    change (rstrip (String c (String c' s)))
      with (match rstrip (String c' s) with
            | "" => if isspace c then "" else String c ""
            | r => String c r
            end).
    by rewrite (IH Hl).
Qed.

Lemma strip_id s : trimmed s = true → strip s = s.
Proof.
  unfold trimmed, strip.
  intros [Hf Hl]%andb_prop. apply negb_true_iff in Hf, Hl.
  by rewrite (lstrip_id _ Hf), (rstrip_id _ Hl).
Qed.

Lemma mem_app c s t : mem c (s +:+ t) = mem c s || mem c t.
Proof.
  induction s as [|c' s IH]; StrFacts.str_simpl; [done |].
  by rewrite IH, orb_assoc.
Qed.

Lemma last_app s t : t ≠ "" → last (s +:+ t) = last t.
Proof.
  intros Ht. induction s as [|c s IH]; [done |].
  rewrite StrFacts.app_cons.
  destruct (s +:+ t) as [|c' u] eqn:Hu.
  - destruct s; [by destruct t | done].
  - exact IH.
Qed.

Lemma lines_nl_nonempty s : lines (s +:+ nl) ≠ [].
Proof.
  destruct s as [|c s]; [done |].
  rewrite StrFacts.app_cons. simpl.
  destruct (Ascii.eqb c LF); [done |]. by destruct (lines (s +:+ nl)).
Qed.

Lemma lines_app s rest :
  lines (s +:+ nl +:+ rest) = lines (s +:+ nl) ++ lines rest.
Proof.
  induction s as [|c s IH]; [done |].
  rewrite !StrFacts.app_cons. simpl.
  destruct (Ascii.eqb c LF); [by rewrite IH |].
  rewrite IH. pose proof (lines_nl_nonempty s) as Hne.
  by destruct (lines (s +:+ nl)).
Qed.

Lemma length_lines_nl s : length (lines (s +:+ nl)) = S (count LF s).
Proof.
  induction s as [|c s IH]; [done |].
  rewrite StrFacts.app_cons. simpl.
  destruct (Ascii.eqb c LF); simpl; [by rewrite IH |].
  pose proof (lines_nl_nonempty s) as Hne.
  destruct (lines (s +:+ nl)); [done | exact IH].
Qed.

End StrMore.

(** X1: an entry without a comma names one dataset: the only identifier is
    the entry stripped of the white space at its ends. *)
Theorem single_identifier (s : string) :
  Str.mem "," s = false → dataset_names (OneString s) = [Str.strip s].
Proof. intros H. simpl. by rewrite StrMore.split_absent. Qed.

Lemma single_identifier_witness :
  dataset_names (OneString "  wikitext ") = [Str.strip "  wikitext "].
Proof. apply single_identifier. reflexivity. Defined.

(** X2: an entry made of white space only (the empty string included) still
    gives one identifier, the empty one, which the loop then processes. *)
Theorem blank_entry_one_empty_identifier (s : string) :
  Str.all_space s = true →
  dataset_names (OneString s) = [""]
  ∧ ∀ hub can_open describe w,
      requests (for_each (dataset_names (OneString s))
                  (process hub can_open describe) w).2
      = requests w ++ [""].
Proof.
  intros Hs.
  assert (dataset_names (OneString s) = [""]) as ->.
  { simpl. rewrite StrMore.split_absent by (by apply StrMore.mem_all_space).
    simpl. by rewrite StrMore.strip_all_space. }
  split; [done |]. intros hub can_open describe w. apply for_each_requests.
Qed.

Lemma blank_entry_one_empty_identifier_witness :
  dataset_names (OneString "   ") = [""]
  ∧ ∀ hub can_open describe w,
      requests (for_each (dataset_names (OneString "   "))
                  (process hub can_open describe) w).2
      = requests w ++ [""].
Proof. apply blank_entry_one_empty_identifier. reflexivity. Defined.

(** X3: identifiers written one after the other with commas between them
    are read back as they were, provided there is at least one, none contains
    a comma and none starts or ends with white space. *)
Theorem join_then_normalize (names : list string) :
  names ≠ [] →
  Forall (fun name => Str.mem "," name = false ∧ Str.trimmed name = true) names →
  dataset_names (OneString (Str.join "," names)) = names.
Proof.
  intros Hne Hall. simpl.
  rewrite StrMore.split_join; [| done | by eapply Forall_impl; [done | intros ? []]].
  induction Hall as [|name names [_ Ht] _ IH]; [done |].
  simpl. rewrite (StrMore.strip_id _ Ht). f_equal.
  destruct names; [done | by apply IH].
Qed.

Lemma join_then_normalize_witness :
  dataset_names (OneString (Str.join "," ["org/ds1"; "a b"; ""; "org/ds2"]))
  = ["org/ds1"; "a b"; ""; "org/ds2"].
Proof.
  apply join_then_normalize; [done |].
  repeat (constructor; [split; reflexivity |]). constructor.
Defined.

(* ===================================================================== *)
(** * More on the records *)
(* ===================================================================== *)

Lemma find_none_Forall {A} (f : A → bool) (l : list A) :
  find f l = None ↔ Forall (fun x => f x = false) l.
Proof.
  induction l as [|x l IH]; simpl; [by split; [constructor |] |].
  destruct (f x) eqn:Hx.
  - split; [done |]. intros [Hx' _]%Forall_cons. congruence.
  - rewrite IH. split; [by constructor | by intros [_ ?]%Forall_cons].
Qed.

Lemma contains_false_iff {V} key (d : list (string * V)) :
  Dict.contains key d = false ↔ field key d = None.
Proof.
  split; [apply contains_false |].
  intros H. by rewrite contains_field, H.
Qed.

Lemma selected_none_iff (item : record) :
  selected_value item = None
  ↔ Dict.contains "text" item = false ∧ Dict.contains "content" item = false
    ∧ Forall (fun kv => is_str kv.2 = false) item.
Proof.
  rewrite !contains_false_iff, <- find_none_Forall. unfold selected_value.
  destruct (field "text" item); [by split; [| intros []] |].
  destruct (field "content" item); [by split; [| intros (_ & ? & _)] |].
  destruct (find _ item); simpl; [by split; [| intros (_ & _ & ?)] | done].
Qed.

(** X4: a record leaves the list of texts as it is exactly when it has no
    field [text], no field [content] and no field that holds a string; any
    other record adds one value. *)
Theorem record_skipped_iff (texts : list value) (item : record) :
  (extract_item texts item = Ok texts
   ↔ Dict.contains "text" item = false ∧ Dict.contains "content" item = false
     ∧ Forall (fun kv => is_str kv.2 = false) item)
  ∧ (extract_item texts item = Ok texts
     ∨ ∃ v, extract_item texts item = Ok (texts ++ [v])).
Proof.
  rewrite <- selected_none_iff, extract_item_selected. split.
  - split.
    + intros [= H]. rewrite <- (app_nil_r texts) in H at 2.
      apply app_inv_head in H. by destruct (selected_value item).
    + intros ->. simpl. by rewrite app_nil_r.
  - destruct (selected_value item) as [v|]; simpl.
    + right. by exists v.
    + left. by rewrite app_nil_r.
Qed.

Lemma record_skipped_iff_witness :
  extract_item [VStr "x"] [("n", VInt 5); ("tags", VList [VStr "s"])]
  = Ok [VStr "x"].
Proof.
  apply record_skipped_iff.
  split; [reflexivity |]. split; [reflexivity |]. by repeat constructor.
Defined.

Lemma field_Some_elem {V} key (v : V) (d : list (string * V)) :
  NoDup d.*1 → field key d = Some v ↔ (key, v) ∈ d.
Proof.
  unfold field. induction d as [|[k u] d IH]; simpl.
  - intros _. split; [done | by intros ?%elem_of_nil].
  - intros [Hk Hd]%NoDup_cons. rewrite elem_of_cons.
    destruct (String.eqb_spec k key) as [-> | Hne]; simpl.
    + split; [intros [= ->]; by left |].
      intros [[= ->] | Hin]; [done |].
      destruct Hk. apply list_elem_of_fmap. by exists (key, v).
    + rewrite (IH Hd). split; [by right |].
      intros [[= ? ?] | Hin]; [congruence | done].
Qed.

Lemma field_perm {V} key (d d' : list (string * V)) :
  NoDup d.*1 → d ≡ₚ d' → field key d = field key d'.
Proof.
  intros Hd Hp.
  assert (NoDup d'.*1) as Hd' by (by rewrite <- Hp).
  destruct (field key d) as [v|] eqn:Hv.
  - symmetry. apply (field_Some_elem _ _ _ Hd'). rewrite <- Hp.
    by apply (field_Some_elem _ _ _ Hd).
  - destruct (field key d') as [v'|] eqn:Hv'; [| done].
    apply (field_Some_elem _ _ _ Hd') in Hv'. rewrite <- Hp in Hv'.
    apply (field_Some_elem _ _ _ Hd) in Hv'. congruence.
Qed.

(** X5: for a record that has a field [text] or a field [content], the
    position of the fields does not matter: a record with the same fields in
    another order contributes the same value.  (The keys of a record are
    distinct, as the keys of a [dict] are.) *)
Theorem named_field_any_position (texts : list value) (item item' : record) :
  NoDup item.*1 → item ≡ₚ item' →
  Dict.contains "text" item || Dict.contains "content" item = true →
  extract_item texts item' = extract_item texts item.
Proof.
  intros Hd Hp Hnamed. rewrite !extract_item_selected. do 2 f_equal.
  unfold selected_value.
  rewrite <- (field_perm "text" _ _ Hd Hp), <- (field_perm "content" _ _ Hd Hp).
  destruct (field "text" item) eqn:Ht; [done |].
  destruct (field "content" item) eqn:Hc; [done |].
  apply contains_false_iff in Ht, Hc. by rewrite Ht, Hc in Hnamed.
Qed.

Lemma named_field_any_position_witness :
  extract_item [VStr "x"] [("title", VStr "t"); ("id", VInt 7); ("text", VStr "body")]
  = extract_item [VStr "x"] [("text", VStr "body"); ("title", VStr "t"); ("id", VInt 7)].
Proof.
  apply named_field_any_position.
  - repeat (apply NoDup_cons; split; [by vm_compute; intros ?%list_elem_of_In; simpl in *; intuition discriminate |]).
    constructor.
  - change [("title", VStr "t"); ("id", VInt 7); ("text", VStr "body")]
      with ([("title", VStr "t"); ("id", VInt 7)] ++ [("text", VStr "body")] : record).
    apply (Permutation_app_comm [("text", VStr "body")]).
  - reflexivity.
Defined.

(** X6: extraction goes record by record: the texts of two runs of records
    put end to end are the texts of the first followed by the texts of the
    second. *)
Theorem extract_texts_app (data1 data2 : list record) :
  extract_texts (data1 ++ data2)
  = (texts1 ← extract_texts data1; texts2 ← extract_texts data2;
     mret (texts1 ++ texts2)).
Proof. rewrite !extract_texts_selected. simpl. by rewrite omap_app. Qed.

Lemma length_omap_le {A B} (f : A → option B) (l : list A) :
  length (omap f l) ≤ length l.
Proof.
  induction l as [|x l IH]; csimpl; [done |].
  destruct (f x); csimpl; lia.
Qed.

(** X7: after a successful export the last line on the console reports the
    number of records of the chosen split that yielded a value, which is
    never more than the number of records of that split. *)
Theorem saved_count_bounded hub can_open name w w' :
  try_body hub can_open name w = (Ok (), w') →
  ∃ ds data,
    hub name = Ok ds ∧ train_data ds = Ok data
    ∧ last (console w')
      = Some ("Saved " +:+ pretty (length (omap selected_value data))
              +:+ " text samples to " +:+ output_file name)
    ∧ length (omap selected_value data) ≤ length data.
Proof.
  intros (texts & Hprep & _ & _ & ->)%body_ok_inv.
  apply prepared_inv in Hprep as (ds & data & Hds & Hdata & ->).
  exists ds, data. repeat split; try done.
  - simpl. apply last_snoc.
  - apply length_omap_le.
Qed.

Lemma saved_count_bounded_witness :
  ∃ ds data,
    example_hub "org/ds2" = Ok ds ∧ train_data ds = Ok data
    ∧ last (console (try_body example_hub always_open "org/ds2" empty_world).2)
      = Some ("Saved " +:+ pretty (length (omap selected_value data))
              +:+ " text samples to " +:+ output_file "org/ds2")
    ∧ length (omap selected_value data) ≤ length data.
Proof.
  apply (saved_count_bounded example_hub always_open "org/ds2" empty_world).
  vm_compute. reflexivity.
Defined.

(* ===================================================================== *)
(** * More on one identifier *)
(* ===================================================================== *)

(** X8: when the hub raises for an identifier, the iteration ends normally:
    the identifier has been announced and requested, the error line with the
    description of what the hub raised is printed, and no file is touched. *)
Theorem fetch_failure_world hub can_open describe name e w :
  hub name = Raise e →
  process hub can_open describe name w
  = (Ok (),
     World (files w)
       (console w ++ ["Loading dataset: " +:+ name;
                      "Error loading dataset " +:+ name +:+ ": " +:+ describe e])
       (requests w ++ [name])).
Proof.
  intros H. rewrite process_spec, try_body_spec. unfold prepared. rewrite H.
  simpl. unfold printed, asked. simpl. by rewrite <- app_assoc.
Qed.

Lemma fetch_failure_world_witness :
  process example_hub always_open example_describe "org/ds1"
    (World {["keep.txt" := "k"]} ["earlier"] ["x"])
  = (Ok (),
     World {["keep.txt" := "k"]}
       (["earlier"] ++ ["Loading dataset: " +:+ "org/ds1";
                        "Error loading dataset " +:+ "org/ds1" +:+ ": "
                        +:+ example_describe (LibraryError "not found")])
       (["x"] ++ ["org/ds1"])).
Proof.
  exact (fetch_failure_world example_hub always_open example_describe "org/ds1"
           (LibraryError "not found") (World {["keep.txt" := "k"]} ["earlier"] ["x"])
           eq_refl).
Defined.

(** X9: a dataset that comes back without any split cannot be exported:
    taking the first split raises [IndexError], which is reported like any
    other failure, and no file is touched. *)
Theorem no_split_is_index_error hub can_open describe name w :
  hub name = Ok [] →
  try_body hub can_open name w
  = (Raise IndexError, World (files w) (console w) (requests w ++ [name]))
  ∧ files (process hub can_open describe name w).2 = files w
  ∧ last (console (process hub can_open describe name w).2)
    = Some ("Error loading dataset " +:+ name +:+ ": " +:+ describe IndexError).
Proof.
  intros H. rewrite process_spec, !try_body_spec. unfold prepared. rewrite H.
  simpl. split; [done |]. split; [done |]. apply last_snoc.
Qed.

Lemma no_split_is_index_error_witness :
  let hub := fun _ : string => (Ok [] : result dataset) in
  try_body hub always_open "org/none" empty_world
  = (Raise IndexError, World ∅ [] ([] ++ ["org/none"]))
  ∧ files (process hub always_open example_describe "org/none" empty_world).2 = ∅
  ∧ last (console (process hub always_open example_describe "org/none" empty_world).2)
    = Some ("Error loading dataset " +:+ "org/none" +:+ ": "
            +:+ example_describe IndexError).
Proof.
  intros hub.
  apply (no_split_is_index_error hub always_open example_describe "org/none" empty_world).
  reflexivity.
Defined.

Lemma length_lines_text_lines (strs : list string) :
  length (Str.lines (text_lines strs))
  = length strs + sum_list (Str.count Str.LF <$> strs).
Proof.
  induction strs as [|s strs IH]; [done |].
  change (text_lines (s :: strs)) with (s +:+ Str.nl +:+ text_lines strs).
  rewrite StrMore.lines_app, length_app, StrMore.length_lines_nl, IH.
  csimpl. lia.
Qed.

(** X10: after a successful export the number of lines of the output file
    is the number of exported values plus the number of line feeds inside
    those values. *)
Theorem line_count_of_export hub can_open name w w' :
  try_body hub can_open name w = (Ok (), w') →
  ∃ ds data strs content,
    hub name = Ok ds ∧ train_data ds = Ok data
    ∧ omap selected_value data = VStr <$> strs
    ∧ files w' !! output_file name = Some content
    ∧ length (Str.lines content)
      = length strs + sum_list (Str.count Str.LF <$> strs).
Proof.
  intros (texts & Hprep & _ & Hstr & ->)%body_ok_inv.
  apply prepared_inv in Hprep as (ds & data & Hds & Hdata & ->).
  apply all_strings in Hstr as (strs & Hstrs & Hr).
  exists ds, data, strs, (text_lines strs). repeat split; try done.
  - simpl. rewrite Hr. apply lookup_insert_eq.
  - apply length_lines_text_lines.
Qed.

Lemma line_count_of_export_witness :
  ∃ ds data strs content,
    example_hub "multi" = Ok ds ∧ train_data ds = Ok data
    ∧ omap selected_value data = VStr <$> strs
    ∧ files (try_body example_hub always_open "multi" empty_world).2
        !! output_file "multi" = Some content
    ∧ length (Str.lines content)
      = length strs + sum_list (Str.count Str.LF <$> strs).
Proof.
  apply (line_count_of_export example_hub always_open "multi" empty_world).
  vm_compute. reflexivity.
Defined.

(* ===================================================================== *)
(** * More on the whole run *)
(* ===================================================================== *)

Section RunMore.
Variable config_file : result config.
Variable hub : string → result dataset.
Variable can_open : string → bool.
Variable describe : exn → string.

Local Abbreviation body := (try_body hub can_open).
Local Abbreviation proc := (process hub can_open describe).
Local Abbreviation run :=
  (download_and_save_datasets config_file hub can_open describe).
Local Abbreviation effect := (fun fs name => file_effect hub can_open name fs).

Lemma process_console name w :
  ∃ line, outcome_of describe name line
    ∧ console (proc name w).2 = console w ++ console_pair name line.
Proof.
  rewrite process_spec.
  destruct (body name (printed (loading_line name) w)) as [[[]|e] w'] eqn:Hb.
  - apply body_ok_inv in Hb as (texts & _ & _ & _ & ->).
    exists (saved_line name texts). split; [left; by exists texts |].
    simpl. by rewrite <- app_assoc.
  - exists (error_line describe name e). split; [right; by exists e |].
    apply body_raise_inv in Hb
      as [[_ ->] | [(? & _ & _ & _ & ->) | (? & ? & _ & _ & _ & _ & ->)]];
      simpl; by rewrite <- app_assoc.
Qed.

Lemma for_each_console names w :
  ∃ outcomes, Forall2 (outcome_of describe) names outcomes
    ∧ console (for_each names proc w).2
      = console w ++ concat (zip_with console_pair names outcomes).
Proof.
  revert w. induction names as [|name names IH]; intros w.
  - exists []. split; [constructor |]. simpl. by rewrite app_nil_r.
  - rewrite for_each_cons.
    destruct (IH (proc name w).2) as (outcomes & Hall & ->).
    destruct (process_console name w) as (line & Hline & ->).
    exists (line :: outcomes). split; [by constructor |].
    simpl. by rewrite <- app_assoc.
Qed.

Lemma run_files_union w :
  ∃ out : gmap string string, files (run w).2 = out ∪ files w.
Proof.
  destruct (config_file ≫= Dict.getitem "hf_dataset_names") as [entry|e] eqn:Hc.
  - eexists. rewrite (run_world _ _ _ _ entry w Hc), for_each_files.
    apply foldl_file_effect_union.
  - exists ∅. rewrite (run_aborted _ _ _ _ e w Hc). by rewrite (left_id_L ∅ (∪)).
Qed.

Lemma rendered_terminated texts : newline_terminated (rendered texts).
Proof.
  unfold newline_terminated.
  induction texts as [|v texts IH]; [by left |].
  destruct v; try (by left). right. simpl.
  rewrite StrMore.last_app by done.
  destruct IH as [-> | IH]; [done |].
  rewrite StrMore.last_app; [done |]. intros H. by rewrite H in IH.
Qed.

Lemma file_effect_terminated name fs p c :
  file_effect hub can_open name fs !! p = Some c →
  fs !! p = Some c ∨ newline_terminated c.
Proof.
  unfold file_effect. destruct (prepared hub name) as [texts|]; [| by left].
  destruct (can_open _); [| by left].
  rewrite lookup_insert. case_decide; [| by left].
  intros [= <-]. right. apply rendered_terminated.
Qed.

Lemma foldl_file_effect_terminated names fs p c :
  foldl effect fs names !! p = Some c → fs !! p = Some c ∨ newline_terminated c.
Proof.
  revert fs. induction names as [|name names IH]; intros fs; [by left |].
  simpl. intros [H | H]%IH; [| by right].
  by apply file_effect_terminated in H.
Qed.

Lemma mem_slash_output_file name : Str.mem "/" (output_file name) = false.
Proof.
  unfold output_file, safe_name.
  by rewrite StrMore.mem_app, StrFacts.replace_removes.
Qed.

(** X11: a run that got its identifiers calls [print] exactly twice for
    each identifier, in the order of the identifiers: first with the
    announcement, then with a message that is either the saved-count report
    or the error message of that identifier; nothing else is printed.  (A
    message is what one call prints; it spans several lines of the terminal
    when the identifier or the description of the failure holds line
    feeds.) *)
Theorem two_prints_each entry w :
  config_file ≫= Dict.getitem "hf_dataset_names" = Ok entry →
  ∃ outcomes,
    Forall2 (outcome_of describe) (dataset_names entry) outcomes
    ∧ console (run w).2
      = console w ++ concat (zip_with console_pair (dataset_names entry) outcomes)
    ∧ length (console (run w).2)
      = length (console w) + 2 * length (dataset_names entry).
Proof.
  intros Hc. rewrite (run_world _ _ _ _ entry w Hc).
  destruct (for_each_console (dataset_names entry) w) as (outcomes & Hall & ->).
  exists outcomes. split; [done |]. split; [done |].
  rewrite length_app. f_equal.
  clear Hc. induction Hall as [|name line names outcomes _ _ IH]; [done |].
  simpl. rewrite IH. lia.
Qed.

(** X12: when an identifier is exported and no identifier after it in the
    sequence has the same output file, the file holds that export at the end
    of the run, whatever identifiers before it wrote there. *)
Theorem last_export_wins entry w before name after ds data :
  config_file ≫= Dict.getitem "hf_dataset_names" = Ok entry →
  dataset_names entry = before ++ name :: after →
  Forall (fun later => output_file later ≠ output_file name) after →
  hub name = Ok ds → train_data ds = Ok data →
  can_open (output_file name) = true →
  files (run w).2 !! output_file name
  = Some (rendered (omap selected_value data)).
Proof.
  intros Hc Hnames Hafter Hds Hdata Hopen.
  rewrite (run_world _ _ _ _ entry w Hc), for_each_files, Hnames.
  rewrite foldl_app. simpl.
  rewrite foldl_file_effect_other
    by (intros later Hl; by apply (proj1 (Forall_forall _ _) Hafter)).
  unfold file_effect at 1, prepared. rewrite Hds. simpl. rewrite Hdata. simpl.
  rewrite extract_texts_selected, Hopen. apply lookup_insert_eq.
Qed.

(** X13: a run removes no file: whatever was in the directory before is
    still there afterwards (possibly overwritten). *)
Theorem no_file_removed w p :
  is_Some (files w !! p) →
  is_Some (files (download_and_save_datasets config_file hub can_open describe w).2
             !! p).
Proof.
  intros Hp. destruct (run_files_union w) as [out ->].
  apply lookup_union_is_Some. by right.
Qed.

(** X14: a file whose content after the run differs from its content before
    is the output file of one of the identifiers, and its name contains no
    ['/']: the run writes in the working directory only. *)
Theorem changed_files_are_outputs w p :
  files (run w).2 !! p ≠ files w !! p →
  ∃ entry name,
    config_file ≫= Dict.getitem "hf_dataset_names" = Ok entry
    ∧ name ∈ dataset_names entry ∧ p = output_file name
    ∧ Str.mem "/" p = false.
Proof.
  intros Hp.
  destruct (config_file ≫= Dict.getitem "hf_dataset_names") as [entry|e] eqn:Hc.
  - rewrite (run_world _ _ _ _ entry w Hc), for_each_files in Hp.
    destruct (decide (Exists (fun name => output_file name = p) (dataset_names entry)))
      as [Hex | Hnot].
    + apply Exists_exists in Hex as (name & Hin & <-).
      exists entry, name. split; [done |]. split; [done |]. split; [done |].
      apply mem_slash_output_file.
    + destruct Hp. apply foldl_file_effect_other.
      intros name Hin Heq. apply Hnot, Exists_exists. by exists name.
  - by rewrite (run_aborted _ _ _ _ e w Hc) in Hp.
Qed.

(** X15: every file a run leaves with a new content is empty or ends with a
    line feed, also when the export that wrote it failed half way. *)
Theorem written_files_end_in_newline w p c :
  files (run w).2 !! p = Some c →
  files w !! p = Some c ∨ newline_terminated c.
Proof.
  destruct (config_file ≫= Dict.getitem "hf_dataset_names") as [entry|e] eqn:Hc.
  - rewrite (run_world _ _ _ _ entry w Hc), for_each_files.
    apply foldl_file_effect_terminated.
  - rewrite (run_aborted _ _ _ _ e w Hc). by left.
Qed.

End RunMore.

(** X16: of the configuration, the run reads the entry [hf_dataset_names]
    and nothing else: two configurations with the same entry under that key
    give the same run. *)
Theorem only_the_names_entry_is_read (cfg1 cfg2 : config) hub can_open describe w :
  field "hf_dataset_names" cfg1 = field "hf_dataset_names" cfg2 →
  download_and_save_datasets (Ok cfg1) hub can_open describe w
  = download_and_save_datasets (Ok cfg2) hub can_open describe w.
Proof.
  intros H. rewrite !run_spec. simpl. by rewrite !getitem_field, H.
Qed.

Lemma two_prints_each_witness :
  ∃ outcomes,
    Forall2 (outcome_of example_describe)
      (dataset_names (OneString "org/ds1, org/ds2")) outcomes
    ∧ console (download_and_save_datasets
                 (Ok [("hf_dataset_names", OneString "org/ds1, org/ds2")])
                 example_hub always_open example_describe empty_world).2
      = console empty_world
        ++ concat (zip_with console_pair
                     (dataset_names (OneString "org/ds1, org/ds2")) outcomes)
    ∧ length (console (download_and_save_datasets
                         (Ok [("hf_dataset_names", OneString "org/ds1, org/ds2")])
                         example_hub always_open example_describe empty_world).2)
      = length (console empty_world)
        + 2 * length (dataset_names (OneString "org/ds1, org/ds2")).
Proof.
  apply (two_prints_each
           (Ok [("hf_dataset_names", OneString "org/ds1, org/ds2")])
           example_hub always_open example_describe
           (OneString "org/ds1, org/ds2") empty_world).
  reflexivity.
Defined.

Lemma last_export_wins_witness :
  files (download_and_save_datasets
           (Ok [("hf_dataset_names", OneString "a/b, a_b, other")])
           collision_hub always_open example_describe empty_world).2
    !! output_file "a_b"
  = Some (rendered (omap selected_value [[("text", VStr "second")]])).
Proof.
  apply (last_export_wins
           (Ok [("hf_dataset_names", OneString "a/b, a_b, other")])
           collision_hub always_open example_describe
           (OneString "a/b, a_b, other") empty_world
           ["a/b"] "a_b" ["other"]
           [("train", [[("text", VStr "second")]])]);
    try reflexivity.
  constructor; [by vm_compute | constructor].
Defined.

Lemma no_file_removed_witness :
  is_Some (files (download_and_save_datasets
                    (Ok [("hf_dataset_names", OneString "org/ds2")])
                    example_hub always_open example_describe
                    (World {["keep.txt" := "k"]} [] [])).2 !! "keep.txt").
Proof.
  apply no_file_removed. exists "k". reflexivity.
Defined.

Lemma changed_files_are_outputs_witness :
  ∃ entry name,
    Ok [("hf_dataset_names", OneString "org/ds2")]
      ≫= Dict.getitem "hf_dataset_names" = Ok entry
    ∧ name ∈ dataset_names entry ∧ "org_ds2.txt" = output_file name
    ∧ Str.mem "/" "org_ds2.txt" = false.
Proof.
  apply (changed_files_are_outputs
           (Ok [("hf_dataset_names", OneString "org/ds2")])
           example_hub always_open example_describe empty_world "org_ds2.txt").
  vm_compute. intros H. discriminate H.
Defined.

Lemma written_files_end_in_newline_witness :
  files empty_world !! "mixed.txt" = Some ("a" +:+ Str.nl)
  ∨ newline_terminated ("a" +:+ Str.nl).
Proof.
  apply (written_files_end_in_newline
           (Ok [("hf_dataset_names", OneString "mixed")])
           example_hub always_open example_describe empty_world "mixed.txt").
  vm_compute. reflexivity.
Defined.

Lemma only_the_names_entry_is_read_witness :
  download_and_save_datasets
    (Ok [("hf_dataset_names", OneString "val"); ("tokenizer", OneString "bpe")])
    example_hub always_open example_describe empty_world
  = download_and_save_datasets
      (Ok [("vocab", Names ["a"]); ("hf_dataset_names", OneString "val")])
      example_hub always_open example_describe empty_world.
Proof. apply only_the_names_entry_is_read. reflexivity. Defined.

(* ===================================================================== *)
(** * More on the split and on where the values come from *)
(* ===================================================================== *)

(** X17: when the dataset has a split named [train], the order in which the
    provider lists the splits does not matter: the same splits in another
    order give the same records to export.  (The names of the splits are
    distinct, as the keys of a [dict] are.) *)
Theorem train_split_any_position (ds ds' : dataset) :
  NoDup ds.*1 → ds ≡ₚ ds' → Dict.contains "train" ds = true →
  train_data ds' = train_data ds.
Proof.
  intros Hd Hp Ht. rewrite !train_data_chosen. unfold chosen_split.
  rewrite <- (field_perm "train" _ _ Hd Hp).
  apply contains_true in Ht as (data & -> & _). done.
Qed.

Lemma train_split_any_position_witness :
  train_data [("train", [[("text", VStr "t")]]); ("test", [])]
  = train_data [("test", []); ("train", [[("text", VStr "t")]])].
Proof.
  apply train_split_any_position.
  - repeat (apply NoDup_cons; split; [by vm_compute; intros ?%list_elem_of_In; simpl in *; intuition discriminate |]).
    constructor.
  - apply (Permutation_app_comm [("test", [])] [("train", [[("text", VStr "t")]])]).
  - reflexivity.
Defined.

Lemma field_elem {V} key (v : V) (d : list (string * V)) :
  field key d = Some v → (key, v) ∈ d.
Proof.
  unfold field. induction d as [|[k u] d IH]; simpl; [done |].
  destruct (String.eqb_spec k key) as [-> | Hne]; simpl.
  - intros [= ->]. by left.
  - intros H. right. by apply IH.
Qed.

(** X18: extraction invents nothing: every value in the list of texts is,
    unchanged, the value of a field of one of the records. *)
Theorem texts_come_from_fields (data : list record) (texts : list value) (v : value) :
  extract_texts data = Ok texts → v ∈ texts →
  ∃ item key, item ∈ data ∧ (key, v) ∈ item.
Proof.
  rewrite extract_texts_selected. intros [= <-].
  intros (item & Hitem & Hv)%list_elem_of_omap.
  exists item. unfold selected_value in Hv.
  destruct (field "text" item) as [t|] eqn:Ht.
  { injection Hv as ->. exists "text". split; [done | by apply field_elem]. }
  destruct (field "content" item) as [c|] eqn:Hc.
  { injection Hv as ->. exists "content". split; [done | by apply field_elem]. }
  destruct (find _ item) as [[k u]|] eqn:Hf; [| done].
  injection Hv as <-. exists k. split; [done |].
  apply find_some in Hf as [Hin _]. by apply list_elem_of_In.
Qed.

Lemma texts_come_from_fields_witness :
  ∃ item key,
    item ∈ [[("id", VInt 1); ("body", VStr "b")]; [("text", VNone)]]
    ∧ (key, VNone) ∈ item.
Proof.
  apply (texts_come_from_fields
           [[("id", VInt 1); ("body", VStr "b")]; [("text", VNone)]]
           [VStr "b"; VNone] VNone).
  - reflexivity.
  - apply list_elem_of_In. simpl. auto.
Defined.
